(** * prebid-cache: configuration, backend decoration and routing

    A shallow embedding of
      - config/config.go            (module [Config]),
      - backends/config/config.go   (module [BackendConfig]),
      - endpoints/routing/handler.go (module [Routing]),
    followed by the properties of the TTL ceiling resolver, the decorator
    chain, the start-up checks and the two routers. *)

From Stdlib Require Import ZArith List Bool Ascii String Lia.
From stdpp Require Import gmap strings.

Local Open Scope string_scope.

(** ** Go's [int] on a 64-bit target *)

Module GoInt.
Local Open Scope Z_scope.

Definition min_int : Z := - 2 ^ 63.
Definition max_int : Z := 2 ^ 63 - 1.

Definition in_range (n : Z) : Prop := min_int <= n <= max_int.

(** Two's complement wrap-around of a mathematical integer. *)
Definition wrap (n : Z) : Z := (n + 2 ^ 63) mod 2 ^ 64 - 2 ^ 63.

Definition mul (a b : Z) : Z := wrap (a * b).
End GoInt.

(** ** Go's conversion of an [int64] to [float64]

    The conversion rounds to the nearest number with a significand of 53
    bits, a tie going to the even significand.  Up to 2^53 in size the
    integer is kept; beyond, the float64 is still an integer, so its value
    is given as a [Z]. *)

Module GoFloat.
Local Open Scope Z_scope.

Definition round53 (a : Z) : Z :=
  if a <? 2 ^ 53 then a
  else
    let e := Z.log2 a - 52 in
    let q := a / 2 ^ e in
    let r := a mod 2 ^ e in
    let half := 2 ^ (e - 1) in
    if (half <? r) || ((r =? half) && Z.odd q)
    then (q + 1) * 2 ^ e
    else q * 2 ^ e.

Definition ofInt64 (n : Z) : Z :=
  if n <? 0 then - round53 (- n) else round53 n.
End GoFloat.

(** ** Process level effects: logrus lines and [log.Fatalf]

    [log.Infof] appends a line; [log.Fatalf] appends a line and ends the
    process with exit status 1, so nothing after it runs. *)

Module Proc.
Inductive Level := InfoLevel | FatalLevel.

Inductive Arg :=
| AInt (n : Z)
| AStr (s : string)
| ABool (b : bool).

Record Line := mkLine { level : Level; format : string; args : list Arg }.

Inductive outcome (A : Type) :=
| Returns (a : A)
| Exits (status : Z).
Arguments Returns {A} a.
Arguments Exits {A} status.

Definition t (A : Type) : Type := list Line * outcome A.

Definition ret {A} (a : A) : t A := ([], Returns a).

Definition bind {A B} (m : t A) (f : A -> t B) : t B :=
  match m with
  | (l, Returns a) => let '(l', r) := f a in ((l ++ l')%list, r)
  | (l, Exits s) => (l, Exits s)
  end.

Definition Infof (fmt : string) (a : list Arg) : t unit :=
  ([mkLine InfoLevel fmt a], Returns tt).

Definition Fatalf {A} (fmt : string) (a : list Arg) : t A :=
  ([mkLine FatalLevel fmt a], Exits 1%Z).

Definition result {A} (m : t A) : outcome A := snd m.

Definition terminates {A} (m : t A) : bool :=
  match result m with
  | Exits _ => true
  | Returns _ => false
  end.
End Proc.

Notation "x <~ m ;; k" := (Proc.bind m (fun x => k))
  (at level 100, m at next level, right associativity).
Notation "m ;;; k" := (Proc.bind m (fun _ => k))
  (at level 100, right associativity).

(** ** package utils (constants) *)

Module Utils.
(** Modelled from the spec: package utils is not part of the sources at
    hand.  Section 4.2 gives the Cassandra constant: "a hard-coded legacy
    ceiling of 2400 seconds"; the comment in [getMaxTTLSeconds] has the
    same number. *)
Definition CASSANDRA_DEFAULT_TTL_SECONDS : Z := 2400.

(** The other constants of the package have no value in the sources at
    hand: they are carried as a parameter record. *)
Record Constants := mkConstants {
  REDIS_DEFAULT_EXPIRATION_MINUTES : Z;
  RATE_LIMITER_NUM_REQUESTS : Z;
  REQUEST_MAX_SIZE_BYTES : Z;
  REQUEST_MAX_NUM_VALUES : Z;
  REQUEST_MAX_TTL_SECONDS : Z
}.
End Utils.

(** ** A model of the viper key/value store

    viper answers a key from, in this order, the environment, the
    configuration file and the defaults set with [SetDefault].  The keys
    of the environment layer are the dotted keys ([setEnvVarsLookup] maps
    [a.b] to [PBC_A_B]). *)

Module Viper.
Inductive Value :=
| VInt (n : Z)
| VString (s : string)
| VBool (b : bool)
| VStrings (l : list string).

Record t := mk {
  defaults : gmap string Value;
  config : gmap string Value;
  envs : gmap string Value
}.

Definition New : t := mk ∅ ∅ ∅.

Definition SetDefault (key : string) (v : Value) (s : t) : t :=
  mk (<[key := v]> (defaults s)) (config s) (envs s).

Definition Get (s : t) (key : string) : option Value :=
  match envs s !! key with
  | Some v => Some v
  | None =>
      match config s !! key with
      | Some v => Some v
      | None => defaults s !! key
      end
  end.

(** What [ReadInConfig] finds on disk. *)
Inductive ConfigFile :=
| FileNotFound
| FileDefective (err : string)
| FileParsed (kv : gmap string Value).

(** Decoding of one field by [Unmarshal]: an absent key leaves Go's zero
    value, a value of another kind is a decoding error. *)
Definition int (s : t) (key : string) : option Z :=
  match Get s key with
  | None => Some 0%Z
  | Some (VInt n) => Some n
  | Some _ => None
  end.

Definition str (s : t) (key : string) : option string :=
  match Get s key with
  | None => Some ""
  | Some (VString x) => Some x
  | Some _ => None
  end.

Definition boolean (s : t) (key : string) : option bool :=
  match Get s key with
  | None => Some false
  | Some (VBool b) => Some b
  | Some _ => None
  end.

Definition strs (s : t) (key : string) : option (list string) :=
  match Get s key with
  | None => Some []
  | Some (VStrings l) => Some l
  | Some _ => None
  end.
End Viper.

(** ** config/config.go *)

Module Config.
Import Viper.

Definition LogLevel := string.
Definition CompressionType := string.
Definition MetricsType := string.
Definition BackendType := string.

Definition CompressionNone : CompressionType := "none".
Definition CompressionSnappy : CompressionType := "snappy".

Definition MetricsNone : MetricsType := "none".
Definition MetricsInflux : MetricsType := "influx".

(** Modelled from the spec: the [BackendType] constants and the [Backend]
    struct with its per-engine parts are declared in a file of package
    config that is not part of the sources at hand.  The spec names the
    engines (in-memory map, Redis, Memcached, Cassandra, Aerospike); the
    tags are the lower-case names, as in the default ["memory"] of
    [setConfigDefaults]; the fields are those of the [backend.*] keys. *)
Definition BackendAerospike : BackendType := "aerospike".
Definition BackendCassandra : BackendType := "cassandra".
Definition BackendMemcache : BackendType := "memcache".
Definition BackendMemory : BackendType := "memory".
Definition BackendRedis : BackendType := "redis".

(** A field that would carry the name of its own struct type has the
    prefix [C] (in [Configuration]) or [B] (in [Backend]); Go's field
    [Type] is [Type_], [CType] and [MType]. *)
Record Aerospike := mkAerospike {
  AerospikeHost : string;
  AerospikeHosts : list string;
  AerospikePort : Z;
  Namespace : string;
  User : string;
  AerospikePassword : string;
  DefaultTTLSecs : Z;
  MaxReadRetries : Z;
  MaxWriteRetries : Z;
  ConnIdleTimeoutSecs : Z;
  ConnQueueSize : Z
}.

Record Cassandra := mkCassandra {
  CassandraHosts : string;
  Keyspace : string;
  CassandraDefaultTTL : Z
}.

Record Memcache := mkMemcache { MemcacheHosts : list string }.

Record RedisTLS := mkRedisTLS { TLSEnabled : bool; InsecureSkipVerify : bool }.

Record Redis := mkRedis {
  RedisHost : string;
  RedisPort : Z;
  RedisPassword : string;
  Db : Z;
  ExpirationMinutes : Z;
  TLS : RedisTLS
}.

Record Backend := mkBackend {
  Type_ : BackendType;
  BAerospike : Aerospike;
  BCassandra : Cassandra;
  BMemcache : Memcache;
  BRedis : Redis
}.

Record Log := mkLog { Level : LogLevel }.

Record RateLimiting := mkRateLimiting {
  Enabled : bool;
  MaxRequestsPerSecond : Z
}.

Record RequestLimits := mkRequestLimits {
  MaxSize : Z;
  MaxNumValues : Z;
  MaxTTLSeconds : Z;
  AllowSettingKeys : bool
}.

Record Compression := mkCompression { CType : CompressionType }.

Record InfluxMetrics := mkInflux {
  InfluxEnabled : bool;
  InfluxHost : string;
  Database : string;
  Measurement : string;
  Username : string;
  InfluxPassword : string;
  AlignTimestamps : bool
}.

Record PrometheusMetrics := mkPrometheus {
  PromPort : Z;
  PromNamespace : string;
  Subsystem : string;
  TimeoutMillisRaw : Z;
  PromEnabled : bool
}.

Record Metrics := mkMetrics {
  MType : MetricsType;
  Influx : InfluxMetrics;
  Prometheus : PrometheusMetrics
}.

Record Routes := mkRoutes { AllowPublicWrite : bool }.

Record Configuration := mkConfiguration {
  Port : Z;
  AdminPort : Z;
  IndexResponse : string;
  CLog : Log;
  CRateLimiting : RateLimiting;
  CRequestLimits : RequestLimits;
  StatusResponse : string;
  CBackend : Backend;
  CCompression : Compression;
  CMetrics : Metrics;
  CRoutes : Routes
}.

(** *** [setConfigDefaults] *)

Definition setConfigDefaults (k : Utils.Constants) (v : Viper.t) : Viper.t :=
  let v := SetDefault "port" (VInt 2424) v in
  let v := SetDefault "admin_port" (VInt 2525) v in
  let v := SetDefault "index_response"
             (VString "This application stores short-term data for use in Prebid.") v in
  let v := SetDefault "status_response" (VString "") v in
  let v := SetDefault "log.level" (VString "info") v in
  let v := SetDefault "backend.type" (VString "memory") v in
  let v := SetDefault "backend.aerospike.host" (VString "") v in
  let v := SetDefault "backend.aerospike.hosts" (VStrings []) v in
  let v := SetDefault "backend.aerospike.port" (VInt 0) v in
  let v := SetDefault "backend.aerospike.namespace" (VString "") v in
  let v := SetDefault "backend.aerospike.user" (VString "") v in
  let v := SetDefault "backend.aerospike.password" (VString "") v in
  let v := SetDefault "backend.aerospike.default_ttl_seconds" (VInt 0) v in
  let v := SetDefault "backend.aerospike.max_read_retries" (VInt 2) v in
  let v := SetDefault "backend.aerospike.max_write_retries" (VInt 0) v in
  let v := SetDefault "backend.aerospike.connection_idle_timeout_seconds" (VInt 0) v in
  let v := SetDefault "backend.aerospike.connection_queue_size" (VInt 0) v in
  let v := SetDefault "backend.cassandra.hosts" (VString "") v in
  let v := SetDefault "backend.cassandra.keyspace" (VString "") v in
  let v := SetDefault "backend.cassandra.default_ttl_seconds"
             (VInt Utils.CASSANDRA_DEFAULT_TTL_SECONDS) v in
  let v := SetDefault "backend.memcache.hosts" (VStrings []) v in
  let v := SetDefault "backend.redis.host" (VString "") v in
  let v := SetDefault "backend.redis.port" (VInt 0) v in
  let v := SetDefault "backend.redis.password" (VString "") v in
  let v := SetDefault "backend.redis.db" (VInt 0) v in
  let v := SetDefault "backend.redis.expiration"
             (VInt (Utils.REDIS_DEFAULT_EXPIRATION_MINUTES k)) v in
  let v := SetDefault "backend.redis.tls.enabled" (VBool false) v in
  let v := SetDefault "backend.redis.tls.insecure_skip_verify" (VBool false) v in
  let v := SetDefault "compression.type" (VString "snappy") v in
  let v := SetDefault "metrics.influx.enabled" (VBool false) v in
  let v := SetDefault "metrics.influx.host" (VString "") v in
  let v := SetDefault "metrics.influx.database" (VString "") v in
  let v := SetDefault "metrics.influx.measurement" (VString "") v in
  let v := SetDefault "metrics.influx.username" (VString "") v in
  let v := SetDefault "metrics.influx.password" (VString "") v in
  let v := SetDefault "metrics.influx.align_timestamps" (VBool false) v in
  let v := SetDefault "metrics.prometheus.port" (VInt 0) v in
  let v := SetDefault "metrics.prometheus.namespace" (VString "") v in
  let v := SetDefault "metrics.prometheus.subsystem" (VString "") v in
  let v := SetDefault "metrics.prometheus.timeout_ms" (VInt 0) v in
  let v := SetDefault "metrics.prometheus.enabled" (VBool false) v in
  let v := SetDefault "rate_limiter.enabled" (VBool true) v in
  let v := SetDefault "rate_limiter.num_requests"
             (VInt (Utils.RATE_LIMITER_NUM_REQUESTS k)) v in
  let v := SetDefault "request_limits.allow_setting_keys" (VBool false) v in
  let v := SetDefault "request_limits.max_size_bytes"
             (VInt (Utils.REQUEST_MAX_SIZE_BYTES k)) v in
  let v := SetDefault "request_limits.max_num_values"
             (VInt (Utils.REQUEST_MAX_NUM_VALUES k)) v in
  let v := SetDefault "request_limits.max_ttl_seconds"
             (VInt (Utils.REQUEST_MAX_TTL_SECONDS k)) v in
  SetDefault "routes.allow_public_write" (VBool true) v.

(** *** [Unmarshal], following the mapstructure tags *)

Definition unmarshalAerospike (v : Viper.t) : option Aerospike :=
  a ← str v "backend.aerospike.host";
  b ← strs v "backend.aerospike.hosts";
  c ← int v "backend.aerospike.port";
  d ← str v "backend.aerospike.namespace";
  e ← str v "backend.aerospike.user";
  f ← str v "backend.aerospike.password";
  g ← int v "backend.aerospike.default_ttl_seconds";
  h ← int v "backend.aerospike.max_read_retries";
  i ← int v "backend.aerospike.max_write_retries";
  j ← int v "backend.aerospike.connection_idle_timeout_seconds";
  l ← int v "backend.aerospike.connection_queue_size";
  Some (mkAerospike a b c d e f g h i j l).

Definition unmarshalCassandra (v : Viper.t) : option Cassandra :=
  a ← str v "backend.cassandra.hosts";
  b ← str v "backend.cassandra.keyspace";
  c ← int v "backend.cassandra.default_ttl_seconds";
  Some (mkCassandra a b c).

Definition unmarshalRedis (v : Viper.t) : option Redis :=
  a ← str v "backend.redis.host";
  b ← int v "backend.redis.port";
  c ← str v "backend.redis.password";
  d ← int v "backend.redis.db";
  e ← int v "backend.redis.expiration";
  f ← boolean v "backend.redis.tls.enabled";
  g ← boolean v "backend.redis.tls.insecure_skip_verify";
  Some (mkRedis a b c d e (mkRedisTLS f g)).

Definition unmarshalBackend (v : Viper.t) : option Backend :=
  t ← str v "backend.type";
  a ← unmarshalAerospike v;
  c ← unmarshalCassandra v;
  m ← strs v "backend.memcache.hosts";
  r ← unmarshalRedis v;
  Some (mkBackend t a c (mkMemcache m) r).

Definition unmarshalMetrics (v : Viper.t) : option Metrics :=
  t ← str v "metrics.type";
  a ← boolean v "metrics.influx.enabled";
  b ← str v "metrics.influx.host";
  c ← str v "metrics.influx.database";
  d ← str v "metrics.influx.measurement";
  e ← str v "metrics.influx.username";
  f ← str v "metrics.influx.password";
  g ← boolean v "metrics.influx.align_timestamps";
  h ← int v "metrics.prometheus.port";
  i ← str v "metrics.prometheus.namespace";
  j ← str v "metrics.prometheus.subsystem";
  l ← int v "metrics.prometheus.timeout_ms";
  m ← boolean v "metrics.prometheus.enabled";
  Some (mkMetrics t (mkInflux a b c d e f g) (mkPrometheus h i j l m)).

Definition unmarshalLimits (v : Viper.t) : option RequestLimits :=
  a ← int v "request_limits.max_size_bytes";
  b ← int v "request_limits.max_num_values";
  c ← int v "request_limits.max_ttl_seconds";
  d ← boolean v "request_limits.allow_setting_keys";
  Some (mkRequestLimits a b c d).

Definition Unmarshal (v : Viper.t) : option Configuration :=
  a ← int v "port";
  b ← int v "admin_port";
  c ← str v "index_response";
  d ← str v "log.level";
  e ← boolean v "rate_limiter.enabled";
  f ← int v "rate_limiter.num_requests";
  g ← unmarshalLimits v;
  h ← str v "status_response";
  i ← unmarshalBackend v;
  j ← str v "compression.type";
  l ← unmarshalMetrics v;
  m ← boolean v "routes.allow_public_write";
  Some (mkConfiguration a b c (mkLog d) (mkRateLimiting e f) g h i
          (mkCompression j) l (mkRoutes m)).

(** *** [NewConfig]

    The environment and what [ReadInConfig] finds are inputs. *)

Definition NewConfig (k : Utils.Constants) (env : gmap string Value)
    (file : ConfigFile) : Proc.t Configuration :=
  let v := setConfigDefaults k Viper.New in
  let v := Viper.mk (defaults v) (config v) env in
  v <~ match file with
       | FileParsed kv => Proc.ret (Viper.mk (defaults v) kv (envs v))
       | FileNotFound =>
           Proc.Infof "Configuration file not detected. Initializing with default values and environment variable overrides." [] ;;;
           Proc.ret v
       | FileDefective err =>
           Proc.Fatalf "Configuration file could not be read: %v" [Proc.AStr err]
       end ;;
  match Unmarshal v with
  | Some cfg => Proc.ret cfg
  | None => Proc.Fatalf "Failed to unmarshal config: %v" []
  end.

(** *** The [validateAndLog] methods

    A double quote inside a Go message is written as a single quote. *)

Local Open Scope Z_scope.

Definition Log_validateAndLog (cfg : Log) : Proc.t unit :=
  Proc.Infof "config.log.level: %s" [Proc.AStr (Level cfg)].

Definition RateLimiting_validateAndLog (cfg : RateLimiting) : Proc.t unit :=
  Proc.Infof "config.rate_limiter.enabled: %t" [Proc.ABool (Enabled cfg)] ;;;
  Proc.Infof "config.rate_limiter.num_requests: %d"
    [Proc.AInt (MaxRequestsPerSecond cfg)].

Definition RequestLimits_validateAndLog (cfg : RequestLimits) : Proc.t unit :=
  Proc.Infof "config.request_limits.allow_setting_keys: %v"
    [Proc.ABool (AllowSettingKeys cfg)] ;;;
  (if MaxTTLSeconds cfg >=? 0
   then Proc.Infof "config.request_limits.max_ttl_seconds: %d"
          [Proc.AInt (MaxTTLSeconds cfg)]
   else Proc.Fatalf
          "invalid config.request_limits.max_ttl_seconds: %d. Value cannot be negative."
          [Proc.AInt (MaxTTLSeconds cfg)]) ;;;
  (if MaxSize cfg >=? 0
   then Proc.Infof "config.request_limits.max_size_bytes: %d"
          [Proc.AInt (MaxSize cfg)]
   else Proc.Fatalf
          "invalid config.request_limits.max_size_bytes: %d. Value cannot be negative."
          [Proc.AInt (MaxSize cfg)]) ;;;
  (if MaxNumValues cfg >=? 0
   then Proc.Infof "config.request_limits.max_num_values: %d"
          [Proc.AInt (MaxNumValues cfg)]
   else Proc.Fatalf
          "invalid config.request_limits.max_num_values: %d. Value cannot be negative."
          [Proc.AInt (MaxNumValues cfg)]).

Definition Compression_validateAndLog (cfg : Compression) : Proc.t unit :=
  if String.eqb (CType cfg) CompressionNone
     || String.eqb (CType cfg) CompressionSnappy
  then Proc.Infof "config.compression.type: %s" [Proc.AStr (CType cfg)]
  else Proc.Fatalf
         "invalid config.compression.type: %s. It must be 'none' or 'snappy'"
         [Proc.AStr (CType cfg)].

Definition InfluxMetrics_validateAndLog (m : InfluxMetrics) : Proc.t unit :=
  (if String.eqb (InfluxHost m) ""
   then Proc.Fatalf "Despite being enabled, influx metrics came with no host info: config.metrics.influx.host = ''." []
   else Proc.ret tt) ;;;
  (if String.eqb (Database m) ""
   then Proc.Fatalf "Despite being enabled, influx metrics came with no database info: config.metrics.influx.database = ''." []
   else Proc.ret tt) ;;;
  (if String.eqb (Measurement m) ""
   then Proc.Fatalf "Despite being enabled, influx metrics came with no measurement info: config.metrics.influx.measurement = ''." []
   else Proc.ret tt) ;;;
  Proc.Infof "config.metrics.influx.host: %s" [Proc.AStr (InfluxHost m)] ;;;
  Proc.Infof "config.metrics.influx.database: %s" [Proc.AStr (Database m)] ;;;
  Proc.Infof "config.metrics.influx.measurement: %s" [Proc.AStr (Measurement m)] ;;;
  Proc.Infof "config.metrics.influx.align_timestamps: %v"
    [Proc.ABool (AlignTimestamps m)].

Definition PrometheusMetrics_validateAndLog (m : PrometheusMetrics) : Proc.t unit :=
  (if PromPort m =? 0
   then Proc.Fatalf
          "Despite being enabled, prometheus metrics came with an empty port number: config.metrics.prometheus.port = 0" []
   else Proc.ret tt) ;;;
  Proc.Infof "config.metrics.prometheus.namespace: %s" [Proc.AStr (PromNamespace m)] ;;;
  Proc.Infof "config.metrics.prometheus.subsystem: %s" [Proc.AStr (Subsystem m)] ;;;
  Proc.Infof "config.metrics.prometheus.port: %d" [Proc.AInt (PromPort m)].

Definition setInfluxEnabled (m : Metrics) : Metrics :=
  let i := Influx m in
  mkMetrics (MType m)
    (mkInflux true (InfluxHost i) (Database i) (Measurement i) (Username i)
       (InfluxPassword i) (AlignTimestamps i))
    (Prometheus m).

(** The receiver is a pointer: the method returns the updated struct. *)
Definition Metrics_validateAndLog (cfg : Metrics) : Proc.t Metrics :=
  cfg <~ (if String.eqb (MType cfg) MetricsInflux || InfluxEnabled (Influx cfg)
          then InfluxMetrics_validateAndLog (Influx cfg) ;;;
               Proc.ret (setInfluxEnabled cfg)
          else Proc.ret cfg) ;;
  (if PromEnabled (Prometheus cfg)
   then PrometheusMetrics_validateAndLog (Prometheus cfg)
   else Proc.ret tt) ;;;
  let metricsEnabled := InfluxEnabled (Influx cfg) || PromEnabled (Prometheus cfg) in
  (if String.eqb (MType cfg) MetricsNone || String.eqb (MType cfg) ""
   then if negb metricsEnabled
        then Proc.Infof "Prebid Cache will run without metrics" []
        else Proc.ret tt
   else if negb (String.eqb (MType cfg) MetricsInflux)
        then if metricsEnabled
             then Proc.Infof "Prebid Cache will run without unsupported metrics '%s'."
                    [Proc.AStr (MType cfg)]
             else Proc.Fatalf "Metrics '%s' are not supported, exiting program."
                    [Proc.AStr (MType cfg)]
        else Proc.ret tt) ;;;
  Proc.ret cfg.

Definition Routes_validateAndLog (cfg : Routes) : Proc.t unit :=
  if negb (AllowPublicWrite cfg)
  then Proc.Infof "Main server will only accept GET requests" []
  else Proc.ret tt.

Section ValidateAndLog.
(** [Backend.validateAndLog] is declared with the [Backend] struct, in
    the file that is not at hand: it is a parameter.  It is called on the
    field [cfg.Backend] itself, which it may update as
    [Metrics.validateAndLog] updates its receiver: it returns the backend
    part as it leaves it, with Go's [error] as an optional message. *)
Variable Backend_validateAndLog : Backend -> Proc.t (Backend * option string).

Definition ValidateAndLog (cfg : Configuration) : Proc.t Configuration :=
  Proc.Infof "config.port: %d" [Proc.AInt (Port cfg)] ;;;
  Proc.Infof "config.admin_port: %d" [Proc.AInt (AdminPort cfg)] ;;;
  Log_validateAndLog (CLog cfg) ;;;
  RateLimiting_validateAndLog (CRateLimiting cfg) ;;;
  RequestLimits_validateAndLog (CRequestLimits cfg) ;;;
  r <~ Backend_validateAndLog (CBackend cfg) ;;
  match snd r with
  | Some e => Proc.Fatalf "%s" [Proc.AStr e]
  | None => Proc.ret tt
  end ;;;
  Compression_validateAndLog (CCompression cfg) ;;;
  m <~ Metrics_validateAndLog (CMetrics cfg) ;;
  Routes_validateAndLog (CRoutes cfg) ;;;
  Proc.ret (mkConfiguration (Port cfg) (AdminPort cfg) (IndexResponse cfg)
              (CLog cfg) (CRateLimiting cfg) (CRequestLimits cfg)
              (StatusResponse cfg) (fst r) (CCompression cfg) m
              (CRoutes cfg)).
End ValidateAndLog.
End Config.

(** ** package backends and its decorators, as far as the factory sees them

    The engines and the decorators are other packages.  A backend value is
    the record of how it was built: which constructor was called, with
    which arguments, and which decorators were put around it. *)

Module Backends.
(** [*metrics.Metrics]: a pointer, known by its address only. *)
Record MetricsRef := mkMetricsRef { addr : N }.

(** [context.Context], with time in milliseconds. *)
Inductive Context :=
| Background
| WithTimeout (parent : Context) (ms : Z).

Inductive Backend :=
| NewCassandraBackend (cfg : Config.Cassandra)
| NewMemoryBackend
| NewMemcacheBackend (cfg : Config.Memcache)
| NewAerospikeBackend (cfg : Config.Aerospike) (m : MetricsRef)
| NewRedisBackend (cfg : Config.Redis) (ctx : Context)
| SnappyCompress (inner : Backend)
| EnforceSizeLimit (inner : Backend) (maxSize : Z)
| LogMetrics (inner : Backend) (m : MetricsRef)
| LimitTTLs (inner : Backend) (maxTTLSeconds : Z).

Inductive Layer :=
| TTLLimiting
| MetricsLogging
| SizeLimit
| Compression.

Definition Layer_eqb (a b : Layer) : bool :=
  match a, b with
  | TTLLimiting, TTLLimiting
  | MetricsLogging, MetricsLogging
  | SizeLimit, SizeLimit
  | Compression, Compression => true
  | _, _ => false
  end.

(** The decorators around an engine, outermost first: the order in which
    a call passes through them. *)
Fixpoint layers (b : Backend) : list Layer :=
  match b with
  | SnappyCompress i => Compression :: layers i
  | EnforceSizeLimit i _ => SizeLimit :: layers i
  | LogMetrics i _ => MetricsLogging :: layers i
  | LimitTTLs i _ => TTLLimiting :: layers i
  | _ => []
  end.

(** The engine at the bottom of the chain. *)
Fixpoint engine (b : Backend) : Backend :=
  match b with
  | SnappyCompress i | EnforceSizeLimit i _ | LogMetrics i _ | LimitTTLs i _ =>
      engine i
  | _ => b
  end.

Definition is_raw (b : Backend) : bool :=
  match b with
  | SnappyCompress _ | EnforceSizeLimit _ _ | LogMetrics _ _ | LimitTTLs _ _ => false
  | _ => true
  end.



Definition size_limits (b : Backend) : nat :=
  length (filter (fun l => Layer_eqb l SizeLimit) (layers b)).
End Backends.

(** ** backends/config/config.go *)

Module BackendConfig.
Import Config Backends.
Local Open Scope Z_scope.

Definition applyCompression (cfg : Config.Compression) (backend : Backend)
    : Proc.t Backend :=
  if String.eqb (CType cfg) CompressionNone then Proc.ret backend
  else if String.eqb (CType cfg) CompressionSnappy
       then Proc.ret (SnappyCompress backend)
       else Proc.Fatalf "Unknown compression type: %s" [Proc.AStr (CType cfg)].

(** [500*time.Millisecond]. *)
Definition constructionTimeout : Z := 500.

(** [defer cancel()] releases the context when the function returns; the
    context a constructor receives is the one built in the first line. *)
Definition newBaseBackend (cfg : Config.Backend) (appMetrics : MetricsRef)
    : Proc.t Backend :=
  let ctx := WithTimeout Background constructionTimeout in
  if String.eqb (Type_ cfg) BackendCassandra
  then Proc.ret (NewCassandraBackend (BCassandra cfg))
  else if String.eqb (Type_ cfg) BackendMemory
  then Proc.ret NewMemoryBackend
  else if String.eqb (Type_ cfg) BackendMemcache
  then Proc.ret (NewMemcacheBackend (BMemcache cfg))
  else if String.eqb (Type_ cfg) BackendAerospike
  then Proc.ret (NewAerospikeBackend (BAerospike cfg) appMetrics)
  else if String.eqb (Type_ cfg) BackendRedis
  then Proc.ret (NewRedisBackend (BRedis cfg) ctx)
  else Proc.Fatalf "Unknown backend type: %s" [Proc.AStr (Type_ cfg)].

Definition getMaxTTLSeconds (cfg : Configuration) : Z :=
  let maxTTLSeconds := MaxTTLSeconds (CRequestLimits cfg) in
  let t := Type_ (CBackend cfg) in
  if String.eqb t BackendCassandra
  then if maxTTLSeconds >? Utils.CASSANDRA_DEFAULT_TTL_SECONDS
       then Utils.CASSANDRA_DEFAULT_TTL_SECONDS
       else maxTTLSeconds
  else if String.eqb t BackendAerospike
  then if (DefaultTTLSecs (BAerospike (CBackend cfg)) >? 0)
          && (maxTTLSeconds >? DefaultTTLSecs (BAerospike (CBackend cfg)))
       then DefaultTTLSecs (BAerospike (CBackend cfg))
       else maxTTLSeconds
  else if String.eqb t BackendRedis
  then if (ExpirationMinutes (BRedis (CBackend cfg)) >? 0)
          && (maxTTLSeconds >? GoInt.mul (ExpirationMinutes (BRedis (CBackend cfg))) 60)
       then GoInt.mul (ExpirationMinutes (BRedis (CBackend cfg))) 60
       else maxTTLSeconds
  else maxTTLSeconds.

Definition DecorateBackend (cfg : Configuration) (appMetrics : MetricsRef)
    (backend : Backend) : Proc.t Backend :=
  backend <~ applyCompression (CCompression cfg) backend ;;
  let backend :=
    if MaxSize (CRequestLimits cfg) >? 0
    then EnforceSizeLimit backend (MaxSize (CRequestLimits cfg))
    else backend in
  let backend := LogMetrics backend appMetrics in
  let backend := LimitTTLs backend (getMaxTTLSeconds cfg) in
  Proc.ret backend.

Definition NewBackend (cfg : Configuration) (appMetrics : MetricsRef)
    : Proc.t Backend :=
  backend <~ newBaseBackend (CBackend cfg) appMetrics ;;
  DecorateBackend cfg appMetrics backend.

(** *** The factory with the engine constructors as parameters

    The constructors of package backends are not at hand, and a
    constructor may write to the log and may end the process (a failed
    connection).  [newBaseBackendWith] and [NewBackendWith] are
    [newBaseBackend] and [NewBackend] with the five constructors taken as
    parameters; the two definitions above are these at the constructors
    that succeed silently and record their call ([recording]). *)
Record Constructors := mkConstructors {
  cassandra : Config.Cassandra -> Proc.t Backend;
  memory : Proc.t Backend;
  memcache : Config.Memcache -> Proc.t Backend;
  aerospike : Config.Aerospike -> MetricsRef -> Proc.t Backend;
  redis : Config.Redis -> Context -> Proc.t Backend
}.

Definition recording : Constructors :=
  mkConstructors
    (fun c => Proc.ret (NewCassandraBackend c))
    (Proc.ret NewMemoryBackend)
    (fun c => Proc.ret (NewMemcacheBackend c))
    (fun c m => Proc.ret (NewAerospikeBackend c m))
    (fun c ctx => Proc.ret (NewRedisBackend c ctx)).

Definition newBaseBackendWith (E : Constructors) (cfg : Config.Backend)
    (appMetrics : MetricsRef) : Proc.t Backend :=
  let ctx := WithTimeout Background constructionTimeout in
  if String.eqb (Type_ cfg) BackendCassandra
  then cassandra E (BCassandra cfg)
  else if String.eqb (Type_ cfg) BackendMemory
  then memory E
  else if String.eqb (Type_ cfg) BackendMemcache
  then memcache E (BMemcache cfg)
  else if String.eqb (Type_ cfg) BackendAerospike
  then aerospike E (BAerospike cfg) appMetrics
  else if String.eqb (Type_ cfg) BackendRedis
  then redis E (BRedis cfg) ctx
  else Proc.Fatalf "Unknown backend type: %s" [Proc.AStr (Type_ cfg)].

Definition NewBackendWith (E : Constructors) (cfg : Configuration)
    (appMetrics : MetricsRef) : Proc.t Backend :=
  backend <~ newBaseBackendWith E (CBackend cfg) appMetrics ;;
  DecorateBackend cfg appMetrics backend.

(** Every constructor returns, whatever it is given. *)
Definition returning (E : Constructors) : Prop :=
  (forall c, Proc.terminates (cassandra E c) = false)
  /\ Proc.terminates (memory E) = false
  /\ (forall c, Proc.terminates (memcache E c) = false)
  /\ (forall c m, Proc.terminates (aerospike E c m) = false)
  /\ (forall c ctx, Proc.terminates (redis E c ctx) = false).
End BackendConfig.

(** ** endpoints/routing/handler.go *)

Module Routing.
Import Config Backends.

(** The handlers of package endpoints, by the call that makes them. *)
Inductive Endpoint :=
| NewIndexHandler (response : string)
| NewStatusEndpoint (response : string)
| NewGetHandler (dataStore : Backend) (m : MetricsRef) (allowKeys : bool)
| NewVersionEndpoint (ver rev : string)
| NewPutHandler (dataStore : Backend) (m : MetricsRef) (maxNumValues : Z)
    (allowKeys : bool).

Record Route := mkRoute { method : string; path : string; handle : Endpoint }.

(** [httprouter.Router]: the registered routes, in registration order. *)
Definition Router := list Route.

Definition New : Router := [].

Definition matches (m p : string) (r : Route) : bool :=
  String.eqb (method r) m && String.eqb (path r) p.

(** [router.Handle]: httprouter panics ([None]) when the path does not
    begin with a slash or when the method already has this path. *)
Definition Handle (m p : string) (h : Endpoint) (router : Router)
    : option Router :=
  match p with
  | String "/"%char _ =>
      if existsb (matches m p) router then None
      else Some (router ++ [mkRoute m p h])%list
  | _ => None
  end.

Definition GET := Handle "GET".
Definition POST := Handle "POST".

(** github.com/rs/cors options and the tollbooth limiter, as configured
    by this file. *)
Record CorsOptions := mkCorsOptions {
  AllowCredentials : bool;
  AllowOriginFunc : string -> bool
}.

Record Limiter := mkLimiter {
  max : Z;
  DefaultExpirationTTL : Z;     (* milliseconds *)
  ipLookups : list string;
  message : string;
  messageContentType : string
}.

Inductive Handler :=
| RouterHandler (r : Router)
| CorsHandler (opts : CorsOptions) (inner : Handler)
| LimitHandler (lmt : Limiter) (next : Handler).

Fixpoint routes (h : Handler) : Router :=
  match h with
  | RouterHandler r => r
  | CorsHandler _ i => routes i
  | LimitHandler _ n => routes n
  end.

Fixpoint limiters (h : Handler) : list Limiter :=
  match h with
  | RouterHandler _ => []
  | CorsHandler _ i => limiters i
  | LimitHandler l n => l :: limiters n
  end.

Fixpoint cors_layers (h : Handler) : nat :=
  match h with
  | RouterHandler _ => 0
  | CorsHandler _ i => S (cors_layers i)
  | LimitHandler _ n => cors_layers n
  end.

(** Is a route for this method and path registered in the router that the
    handler serves from? *)
Definition registered (h : Handler) (m p : string) : bool :=
  existsb (matches m p) (routes h).

Definition has_method (h : Handler) (m : string) : bool :=
  existsb (fun r => String.eqb (method r) m) (routes h).

Definition hour : Z := 3600000.

Section Handlers.
(** [version.Ver] and [version.Rev], set at build time. *)
Variables Ver Rev : string.

Definition addReadRoutes (cfg : Configuration) (dataStore : Backend)
    (appMetrics : MetricsRef) (router : Router) : option Router :=
  router ← GET "/" (NewIndexHandler (IndexResponse cfg)) router;
  router ← GET "/status" (NewStatusEndpoint (StatusResponse cfg)) router;
  router ← GET "/cache"
             (NewGetHandler dataStore appMetrics
                (AllowSettingKeys (CRequestLimits cfg))) router;
  GET "/version" (NewVersionEndpoint Ver Rev) router.

Definition addWriteRoutes (cfg : Configuration) (dataStore : Backend)
    (appMetrics : MetricsRef) (router : Router) : option Router :=
  POST "/cache"
    (NewPutHandler dataStore appMetrics (MaxNumValues (CRequestLimits cfg))
       (AllowSettingKeys (CRequestLimits cfg))) router.

Definition handleCors (handler : Handler) : Handler :=
  CorsHandler (mkCorsOptions true (fun _ => true)) handler.

(** The double quote character, and the message of the limiter: the JSON
    object with the one member error, whose value is the text rate
    limit, with the spaces and the double quotes of the Go literal. *)
Definition dq : string := String "034"%char EmptyString.

Definition rateLimitMessage : string :=
  String.append "{ "
    (String.append dq (String.append "error" (String.append dq
      (String.append ": " (String.append dq (String.append "rate limit"
        (String.append dq " }"))))))).

(** The field [max] of the limiter holds the value of
    [float64(cfg.MaxRequestsPerSecond)]. *)
Definition handleRateLimiting (next : Handler) (cfg : RateLimiting) : Handler :=
  if negb (Enabled cfg) then next
  else
    LimitHandler
      (mkLimiter (GoFloat.ofInt64 (MaxRequestsPerSecond cfg)) (1 * hour)
         ["X-Forwarded-For"; "X-Real-IP"]
         rateLimitMessage
         "application/json")
      next.

Definition NewAdminHandler (cfg : Configuration) (dataStore : Backend)
    (appMetrics : MetricsRef) : option Handler :=
  router ← addReadRoutes cfg dataStore appMetrics New;
  router ← addWriteRoutes cfg dataStore appMetrics router;
  Some (RouterHandler router).

Definition NewPublicHandler (cfg : Configuration) (dataStore : Backend)
    (appMetrics : MetricsRef) : option Handler :=
  router ← addReadRoutes cfg dataStore appMetrics New;
  router ← (if AllowPublicWrite (CRoutes cfg)
            then addWriteRoutes cfg dataStore appMetrics router
            else Some router);
  let handler := handleCors (RouterHandler router) in
  let handler := handleRateLimiting handler (CRateLimiting cfg) in
  Some handler.
End Handlers.
End Routing.

(** ** The TTL ceiling as the design document words it

    "The smallest non-zero candidate wins; a candidate of 0 is treated as
    not set and ignored"; with no candidate left the ceiling is 0.  This
    definition follows those words, not the code: it is what
    [BackendConfig.getMaxTTLSeconds] is compared with. *)

Module TTLSpec.
Import Config.
Local Open Scope Z_scope.

Definition backendCandidates (b : Config.Backend) : list Z :=
  if String.eqb (Type_ b) BackendCassandra then [2400]
  else if String.eqb (Type_ b) BackendAerospike
  then [DefaultTTLSecs (BAerospike b)]
  else if String.eqb (Type_ b) BackendRedis
  then [ExpirationMinutes (BRedis b) * 60]
  else [].

Definition candidates (cfg : Configuration) : list Z :=
  MaxTTLSeconds (CRequestLimits cfg) :: backendCandidates (CBackend cfg).

Definition nonZero (l : list Z) : list Z :=
  List.filter (fun x => negb (x =? 0)) l.

Definition minimum (l : list Z) : Z :=
  match l with
  | [] => 0
  | x :: xs => fold_left Z.min xs x
  end.

Definition ceiling (cfg : Configuration) : Z :=
  minimum (nonZero (candidates cfg)).

(** Every number of the configuration that the resolver reads is in the
    range a deployment can give it: not negative, and the Redis
    expiration small enough for its seconds to fit Go's [int]. *)
Definition sane (cfg : Configuration) : Prop :=
  0 <= MaxTTLSeconds (CRequestLimits cfg) <= GoInt.max_int
  /\ 0 <= DefaultTTLSecs (BAerospike (CBackend cfg)) <= GoInt.max_int
  /\ 0 <= ExpirationMinutes (BRedis (CBackend cfg)) * 60 <= GoInt.max_int.
End TTLSpec.

(** ** Sample configurations *)

Module Samples.
Import Config.
Local Open Scope Z_scope.

Definition aerospike (ttl : Z) : Aerospike :=
  mkAerospike "" [] 0 "" "" "" ttl 2 0 0 0.

Definition redis (minutes : Z) : Redis :=
  mkRedis "" 0 "" 0 minutes (mkRedisTLS false false).

Definition backend (t : BackendType) (aeroTTL redisMinutes : Z) : Backend :=
  mkBackend t (aerospike aeroTTL) (mkCassandra "" "" 2400) (mkMemcache [])
    (redis redisMinutes).

Definition metrics : Metrics :=
  mkMetrics "" (mkInflux false "" "" "" "" "" false) (mkPrometheus 0 "" "" 0 false).

(** A configuration by the fields the theorems look at: the backend tag,
    the three TTL sources, the compression type, the size ceiling, the
    two switches. *)
Definition cfg (t : BackendType) (maxTTL aeroTTL redisMinutes : Z)
    (compression : CompressionType) (maxSize : Z)
    (rateLimit publicWrite : bool) : Configuration :=
  mkConfiguration 2424 2525 "index" (mkLog "info")
    (mkRateLimiting rateLimit 100)
    (mkRequestLimits maxSize 10 maxTTL false) ""
    (backend t aeroTTL redisMinutes) (mkCompression compression) metrics
    (mkRoutes publicWrite).

Definition appMetrics : Backends.MetricsRef := Backends.mkMetricsRef 1.

Definition cassandraUnset := cfg BackendCassandra 0 0 0 CompressionSnappy 0 true true.
Definition cassandra3000 := cfg BackendCassandra 3000 0 0 CompressionSnappy 0 true true.
Definition redisUnset := cfg BackendRedis 0 0 10 CompressionSnappy 0 true true.
Definition redis3600 := cfg BackendRedis 3600 0 10 CompressionSnappy 0 true true.
Definition aerospike500 := cfg BackendAerospike 500 1000 0 CompressionSnappy 0 true true.
Definition memoryNone := cfg BackendMemory 3600 0 0 CompressionNone 10 true true.
Definition memoryGzip := cfg BackendMemory 3600 0 0 "gzip" 10 true true.
Definition memoryUnlimited := cfg BackendMemory 3600 0 0 CompressionSnappy 0 true true.

(** [memoryUnlimited] with a metrics type that is not supported. *)
Definition statsdMetrics : Configuration :=
  mkConfiguration 2424 2525 "index" (mkLog "info") (mkRateLimiting true 100)
    (mkRequestLimits 0 10 3600 false) ""
    (backend BackendMemory 0 0) (mkCompression CompressionSnappy)
    (mkMetrics "statsd" (Influx metrics) (Prometheus metrics))
    (mkRoutes true).

Definition unlimitedChain : Backends.Backend :=
  Backends.LimitTTLs
    (Backends.LogMetrics (Backends.SnappyCompress Backends.NewMemoryBackend)
       appMetrics) 3600.

Definition noLimiter : RateLimiting := mkRateLimiting false 100.

(** 2^62 minutes: a positive [int] whose product with 60 wraps to 0. *)
Definition redisOverflow :=
  cfg BackendRedis 3600 0 4611686018427387904 CompressionSnappy 0 true true.
(** Neither the backend tag nor the compression type is a known one. *)
Definition unknownBoth := cfg "etcd" 3600 0 0 "gzip" 10 true true.
Definition memoryLimited := cfg BackendMemory 3600 0 0 CompressionSnappy 10 true true.
Definition limitedChain : Backends.Backend :=
  Backends.LimitTTLs
    (Backends.LogMetrics
       (Backends.EnforceSizeLimit
          (Backends.SnappyCompress Backends.NewMemoryBackend) 10)
       appMetrics) 3600.
(** Metrics of type influx, complete but not marked as enabled. *)
Definition influxByType : Metrics :=
  mkMetrics MetricsInflux (mkInflux false "host" "db" "m" "" "" false)
    (mkPrometheus 0 "" "" 0 false).
Definition influxValidated : Metrics :=
  mkMetrics MetricsInflux (mkInflux true "host" "db" "m" "" "" false)
    (mkPrometheus 0 "" "" 0 false).
(** A backend validation that lets every backend through, unchanged. *)
Definition passing (b : Backend) : Proc.t (Backend * option string) :=
  Proc.ret (b, None).
(** An unknown backend tag, everything else in order. *)
Definition unknownTag := cfg "etcd" 3600 0 0 CompressionSnappy 10 true true.
(** Constructors of which the Redis one fails to connect. *)
Definition redisDown : BackendConfig.Constructors :=
  BackendConfig.mkConstructors
    (BackendConfig.cassandra BackendConfig.recording)
    (BackendConfig.memory BackendConfig.recording)
    (BackendConfig.memcache BackendConfig.recording)
    (BackendConfig.aerospike BackendConfig.recording)
    (fun _ _ => Proc.Fatalf "Error creating Redis backend: %v" []).
Definition limiter100 : RateLimiting := mkRateLimiting true 100.
Definition prometheus250 : PrometheusMetrics := mkPrometheus 8080 "" "" 250 true.
Definition memcache3600 := cfg BackendMemcache 3600 7 7 CompressionSnappy 0 true true.
Definition memcache3600' := cfg BackendMemcache 3600 9 9 CompressionNone 5 false false.
End Samples.

(** ** The decorator chain and the start-up checks, as the design document
    words them

    These definitions follow the words of the document; the theorems
    compare them with [BackendConfig]. *)

Module StartupSpec.
Import Config Backends BackendConfig.
Local Open Scope Z_scope.

(** "TTLLimiting, MetricsLogging, SizeLimit (if configured), Compression",
    outermost first. *)
Definition statedLayers (cfg : Configuration) : list Layer :=
  ([TTLLimiting; MetricsLogging]
   ++ (if MaxSize (CRequestLimits cfg) >? 0 then [SizeLimit] else [])
   ++ [Compression])%list.

Definition builtAsStated (cfg : Configuration) (m : MetricsRef) (b : Backend)
    : Prop :=
  exists chain,
    Proc.result (DecorateBackend cfg m b) = Proc.Returns chain
    /\ layers chain = statedLayers cfg
    /\ engine chain = b.

(** The same list with the compression layer present for snappy only. *)
Definition builtLayers (cfg : Configuration) : list Layer :=
  ([TTLLimiting; MetricsLogging]
   ++ (if MaxSize (CRequestLimits cfg) >? 0 then [SizeLimit] else [])
   ++ (if String.eqb (CType (CCompression cfg)) CompressionSnappy
       then [Compression] else []))%list.

(** The three cases of the error class ConfigurationFatal. *)
Definition knownCompression (t : CompressionType) : bool :=
  String.eqb t CompressionNone || String.eqb t CompressionSnappy.

Definition knownBackend (t : BackendType) : bool :=
  existsb (String.eqb t)
    [BackendCassandra; BackendMemory; BackendMemcache; BackendAerospike;
     BackendRedis].

Definition negativeLimit (l : RequestLimits) : bool :=
  (MaxTTLSeconds l <? 0) || (MaxSize l <? 0) || (MaxNumValues l <? 0).

End StartupSpec.

(** ** The routes the design document names *)

Module RoutesSpec.
(** The read routes: index, status, read by key, version. *)
Definition readPaths : list string := ["/"; "/status"; "/cache"; "/version"].

Definition writePath : string := "/cache".
End RoutesSpec.

(** ** Observations on configurations, chains, handlers and logs

    Read-only helpers used to state what the functions above build. *)

Module Observe.
Import Config Backends Routing.
Local Open Scope Z_scope.

(** [PrometheusMetrics.Timeout]: [time.Duration] is an [int64] count of
    nanoseconds and [time.Millisecond] is 1000000 of them. *)
Definition Millisecond : Z := 1000000.

Definition Timeout (m : PrometheusMetrics) : Z :=
  GoInt.mul (TimeoutMillisRaw m) Millisecond.

(** A configuration with another [request_limits.max_ttl_seconds]. *)
Definition withMaxTTL (cfg : Configuration) (ttl : Z) : Configuration :=
  mkConfiguration (Port cfg) (AdminPort cfg) (IndexResponse cfg) (CLog cfg)
    (CRateLimiting cfg)
    (mkRequestLimits (MaxSize (CRequestLimits cfg))
       (MaxNumValues (CRequestLimits cfg)) ttl
       (AllowSettingKeys (CRequestLimits cfg)))
    (StatusResponse cfg) (CBackend cfg) (CCompression cfg) (CMetrics cfg)
    (CRoutes cfg).

(** A configuration with another backend part. *)
Definition withBackend (cfg : Configuration) (b : Config.Backend) : Configuration :=
  mkConfiguration (Port cfg) (AdminPort cfg) (IndexResponse cfg) (CLog cfg)
    (CRateLimiting cfg) (CRequestLimits cfg) (StatusResponse cfg)
    b (CCompression cfg) (CMetrics cfg) (CRoutes cfg).

(** The backend validation has not let the configuration through: it has
    ended the process or returned an error. *)
Definition validationFails (p : Proc.t (Config.Backend * option string)) : bool :=
  match Proc.result p with
  | Proc.Returns (_, None) => false
  | _ => true
  end.

(** A configuration with another metrics part. *)
Definition withMetrics (cfg : Configuration) (m : Metrics) : Configuration :=
  mkConfiguration (Port cfg) (AdminPort cfg) (IndexResponse cfg) (CLog cfg)
    (CRateLimiting cfg) (CRequestLimits cfg) (StatusResponse cfg)
    (CBackend cfg) (CCompression cfg) m (CRoutes cfg).

(** The arguments the decorators of a chain were given, outermost first. *)
Fixpoint ttl_limits (b : Backend) : list Z :=
  match b with
  | LimitTTLs i t => t :: ttl_limits i
  | SnappyCompress i | EnforceSizeLimit i _ | LogMetrics i _ => ttl_limits i
  | _ => []
  end.

Fixpoint size_ceilings (b : Backend) : list Z :=
  match b with
  | EnforceSizeLimit i n => n :: size_ceilings i
  | SnappyCompress i | LimitTTLs i _ | LogMetrics i _ => size_ceilings i
  | _ => []
  end.

Fixpoint metrics_handles (b : Backend) : list MetricsRef :=
  match b with
  | LogMetrics i m => m :: metrics_handles i
  | SnappyCompress i | LimitTTLs i _ | EnforceSizeLimit i _ => metrics_handles i
  | _ => []
  end.

(** The CORS options of a handler, outermost first. *)
Fixpoint cors_options (h : Handler) : list CorsOptions :=
  match h with
  | RouterHandler _ => []
  | CorsHandler o i => o :: cors_options i
  | LimitHandler _ n => cors_options n
  end.

(** The handler registered for a method and a path. *)
Definition lookup (h : Handler) (m p : string) : option Endpoint :=
  handle <$> List.find (matches m p) (routes h).

(** The conditions under which the metrics part of the validation calls
    [log.Fatalf], in the order of the checks. *)
Definition influxSelected (m : Metrics) : bool :=
  String.eqb (MType m) MetricsInflux || InfluxEnabled (Influx m).

Definition influxIncomplete (i : InfluxMetrics) : bool :=
  String.eqb (InfluxHost i) "" || String.eqb (Database i) ""
  || String.eqb (Measurement i) "".

Definition unsupportedType (m : Metrics) : bool :=
  negb (String.eqb (MType m) MetricsNone || String.eqb (MType m) ""
        || String.eqb (MType m) MetricsInflux).

Definition metricsFatal (m : Metrics) : bool :=
  (influxSelected m && influxIncomplete (Influx m))
  || (PromEnabled (Prometheus m) && (PromPort (Prometheus m) =? 0))
  || (unsupportedType m
      && negb (influxSelected m || PromEnabled (Prometheus m))).

(** The ceiling a backend brings of its own, if it brings one: what
    [getMaxTTLSeconds] compares the global value with. *)
Definition backendCeiling (b : Config.Backend) : option Z :=
  if String.eqb (Type_ b) BackendCassandra
  then Some Utils.CASSANDRA_DEFAULT_TTL_SECONDS
  else if String.eqb (Type_ b) BackendAerospike
  then if DefaultTTLSecs (BAerospike b) >? 0
       then Some (DefaultTTLSecs (BAerospike b)) else None
  else if String.eqb (Type_ b) BackendRedis
  then if ExpirationMinutes (BRedis b) >? 0
       then Some (GoInt.mul (ExpirationMinutes (BRedis b)) 60) else None
  else None.

(** The format of the line a process ended with. *)
Definition fatal_format {A} (m : Proc.t A) : option string :=
  match Proc.result m with
  | Proc.Exits _ => Proc.format <$> List.last (Some <$> fst m) None
  | Proc.Returns _ => None
  end.
End Observe.

(** ** The fatal start-up cases, as the design document lists them

    "Unrecognized backend type, unrecognized compression type, invalid
    negative limit", and the statement that the start-up validation ends
    the process in these cases and in no other. *)

Module FatalSpec.
Import Config StartupSpec.

Definition fatalCase (cfg : Configuration) : bool :=
  negb (knownBackend (Type_ (CBackend cfg)))
  || negb (knownCompression (CType (CCompression cfg)))
  || negativeLimit (CRequestLimits cfg).

Definition exitsExactly
    (V : Config.Backend -> Proc.t (Config.Backend * option string))
    (cfg : Configuration) : Prop :=
  Proc.terminates (ValidateAndLog V cfg) = fatalCase cfg.
End FatalSpec.

(** * Properties *)

(** ** Go integers *)

Lemma wrap_in_range (n : Z) : GoInt.in_range n -> GoInt.wrap n = n.
Proof.
  unfold GoInt.in_range, GoInt.wrap, GoInt.min_int, GoInt.max_int.
  intros H.
  rewrite Z.mod_small by lia.
  lia.
Qed.

Lemma mul_exact (a b : Z) :
  (0 <= a * b <= GoInt.max_int)%Z -> GoInt.mul a b = (a * b)%Z.
Proof.
  intros H. unfold GoInt.mul. apply wrap_in_range.
  unfold GoInt.in_range, GoInt.min_int, GoInt.max_int in *. lia.
Qed.

(** ** The TTL ceiling resolver *)

Section Resolver.
Import Config BackendConfig.
Local Open Scope Z_scope.

Variable cfg : Configuration.

Let global := MaxTTLSeconds (CRequestLimits cfg).
Let tag := Type_ (CBackend cfg).
Let aeroTTL := DefaultTTLSecs (BAerospike (CBackend cfg)).
Let minutes := ExpirationMinutes (BRedis (CBackend cfg)).

(** What the resolver computes, one backend tag at a time. *)

Lemma getMaxTTLSeconds_cassandra :
  tag = BackendCassandra -> getMaxTTLSeconds cfg = Z.min global 2400.
Proof.
  subst tag global. intros E. unfold getMaxTTLSeconds. rewrite E. simpl.
  unfold Utils.CASSANDRA_DEFAULT_TTL_SECONDS.
  destruct (Z.gtb_spec (MaxTTLSeconds (CRequestLimits cfg)) 2400); lia.
Qed.

Lemma getMaxTTLSeconds_aerospike :
  tag = BackendAerospike ->
  getMaxTTLSeconds cfg = if 0 <? aeroTTL then Z.min global aeroTTL else global.
Proof.
  subst tag global aeroTTL. intros E. unfold getMaxTTLSeconds. rewrite E. simpl.
  set (d := DefaultTTLSecs _). set (g := MaxTTLSeconds _).
  destruct (Z.gtb_spec d 0), (Z.ltb_spec 0 d), (Z.gtb_spec g d); simpl; lia.
Qed.

Lemma getMaxTTLSeconds_redis :
  tag = BackendRedis ->
  getMaxTTLSeconds cfg =
    if 0 <? minutes then Z.min global (GoInt.mul minutes 60) else global.
Proof.
  subst tag global minutes. intros E. unfold getMaxTTLSeconds. rewrite E. simpl.
  set (e := ExpirationMinutes _). set (g := MaxTTLSeconds _).
  destruct (Z.gtb_spec e 0), (Z.ltb_spec 0 e), (Z.gtb_spec g (GoInt.mul e 60));
    simpl; lia.
Qed.

Lemma getMaxTTLSeconds_other :
  tag <> BackendCassandra -> tag <> BackendAerospike -> tag <> BackendRedis ->
  getMaxTTLSeconds cfg = global.
Proof.
  subst tag global. intros H1 H2 H3. unfold getMaxTTLSeconds.
  apply String.eqb_neq in H1, H2, H3. rewrite H1, H2, H3. reflexivity.
Qed.

(** The same, for the wording of the design document. *)

Lemma ceiling_cassandra :
  tag = BackendCassandra ->
  TTLSpec.ceiling cfg = if global =? 0 then 2400 else Z.min global 2400.
Proof.
  subst tag global. intros E.
  unfold TTLSpec.ceiling, TTLSpec.candidates, TTLSpec.backendCandidates.
  rewrite E. simpl.
  destruct (Z.eqb_spec (MaxTTLSeconds (CRequestLimits cfg)) 0); reflexivity.
Qed.

Lemma ceiling_one_candidate (c : Z) :
  TTLSpec.minimum (TTLSpec.nonZero [global; c]) =
    if global =? 0 then c
    else if c =? 0 then global else Z.min global c.
Proof.
  unfold TTLSpec.nonZero. simpl.
  destruct (Z.eqb_spec global 0), (Z.eqb_spec c 0); simpl; lia.
Qed.

Lemma ceiling_no_candidate :
  TTLSpec.minimum (TTLSpec.nonZero [global]) = global.
Proof.
  unfold TTLSpec.nonZero. simpl.
  destruct (Z.eqb_spec global 0); simpl; lia.
Qed.

Lemma tag_cases :
  tag = BackendCassandra \/ tag = BackendAerospike \/ tag = BackendRedis
  \/ (tag <> BackendCassandra /\ tag <> BackendAerospike /\ tag <> BackendRedis).
Proof.
  destruct (String.eqb_spec tag BackendCassandra); [tauto|].
  destruct (String.eqb_spec tag BackendAerospike); [tauto|].
  destruct (String.eqb_spec tag BackendRedis); tauto.
Qed.
End Resolver.

Section ResolverClaims.
Import Config BackendConfig.
Local Open Scope Z_scope.

(** C1, as the claim states it, fails: with the global ceiling unset and a
    Cassandra backend the smallest non-zero candidate is 2400, and the
    resolver returns 0. *)
Lemma getMaxTTLSeconds_unset_global_cassandra :
  getMaxTTLSeconds Samples.cassandraUnset = 0
  /\ TTLSpec.ceiling Samples.cassandraUnset = 2400
  /\ getMaxTTLSeconds Samples.cassandraUnset <> TTLSpec.ceiling Samples.cassandraUnset.
Proof.
  repeat split; try reflexivity. vm_compute. discriminate.
Qed.

(** C1 (amended): for a configuration whose numbers are in range, the
    resolver returns the minimum of the non-zero candidates (the global
    max_ttl_seconds, 2400 for Cassandra, the Aerospike default TTL, the
    Redis expiration times 60) whenever the global max_ttl_seconds is
    positive; when the global max_ttl_seconds is 0 it returns 0, whatever
    the candidate of the backend is. *)
Theorem getMaxTTLSeconds_smallest_nonzero (cfg : Configuration) :
  TTLSpec.sane cfg ->
  (0 < MaxTTLSeconds (CRequestLimits cfg) ->
   getMaxTTLSeconds cfg = TTLSpec.ceiling cfg)
  /\ (MaxTTLSeconds (CRequestLimits cfg) = 0 -> getMaxTTLSeconds cfg = 0).
Proof.
  intros (Hg & Ha & Hr).
  assert (Hmul := mul_exact (ExpirationMinutes (BRedis (CBackend cfg))) 60 Hr).
  destruct (tag_cases cfg) as [E | [E | [E | (N1 & N2 & N3)]]].
  - rewrite (getMaxTTLSeconds_cassandra cfg E), (ceiling_cassandra cfg E).
    split; intros H.
    + destruct (Z.eqb_spec (MaxTTLSeconds (CRequestLimits cfg)) 0); lia.
    + rewrite H. reflexivity.
  - rewrite (getMaxTTLSeconds_aerospike cfg E).
    unfold TTLSpec.ceiling, TTLSpec.candidates, TTLSpec.backendCandidates.
    rewrite E. simpl String.eqb. cbv iota.
    rewrite ceiling_one_candidate.
    set (d := DefaultTTLSecs _) in *. set (g := MaxTTLSeconds _) in *.
    split; intros H;
      destruct (Z.ltb_spec 0 d), (Z.eqb_spec g 0), (Z.eqb_spec d 0); lia.
  - rewrite (getMaxTTLSeconds_redis cfg E), Hmul.
    unfold TTLSpec.ceiling, TTLSpec.candidates, TTLSpec.backendCandidates.
    rewrite E. simpl String.eqb. cbv iota.
    rewrite ceiling_one_candidate.
    set (e := ExpirationMinutes _) in *. set (g := MaxTTLSeconds _) in *.
    split; intros H;
      destruct (Z.ltb_spec 0 e), (Z.eqb_spec g 0), (Z.eqb_spec (e * 60) 0); lia.
  - rewrite (getMaxTTLSeconds_other cfg N1 N2 N3).
    unfold TTLSpec.ceiling, TTLSpec.candidates, TTLSpec.backendCandidates.
    apply String.eqb_neq in N1, N2, N3. rewrite N1, N2, N3.
    rewrite ceiling_no_candidate. split; intros H; lia.
Qed.

Lemma getMaxTTLSeconds_smallest_nonzero_witness :
  getMaxTTLSeconds Samples.cassandra3000 = TTLSpec.ceiling Samples.cassandra3000.
Proof.
  apply (getMaxTTLSeconds_smallest_nonzero Samples.cassandra3000).
  - unfold TTLSpec.sane, GoInt.max_int. simpl. lia.
  - simpl. lia.
Defined.

(** C2, as the claim states it, fails at its own example: with the global
    ceiling 0 and a Redis expiration of 10 minutes the resolver returns 0,
    not 600. *)
Lemma getMaxTTLSeconds_unset_global_redis :
  getMaxTTLSeconds Samples.redisUnset = 0
  /\ getMaxTTLSeconds Samples.redisUnset <> 600.
Proof.
  split; [reflexivity|]. vm_compute. discriminate.
Qed.

(** C2 (amended): for a Redis-backed configuration whose expiration in
    minutes is positive (and whose seconds fit Go's int), the resolver
    multiplies the expiration by 60 and returns the product only when the
    global ceiling is larger than it; otherwise it returns the global
    ceiling.  So with the global ceiling 0 the result is 0, and with a
    global ceiling above 600 and an expiration of 10 minutes it is 600. *)
Theorem getMaxTTLSeconds_redis_minutes (cfg : Configuration) :
  Type_ (CBackend cfg) = BackendRedis ->
  0 < ExpirationMinutes (BRedis (CBackend cfg)) ->
  ExpirationMinutes (BRedis (CBackend cfg)) * 60 <= GoInt.max_int ->
  getMaxTTLSeconds cfg =
    (if MaxTTLSeconds (CRequestLimits cfg)
          >? ExpirationMinutes (BRedis (CBackend cfg)) * 60
     then ExpirationMinutes (BRedis (CBackend cfg)) * 60
     else MaxTTLSeconds (CRequestLimits cfg))
  /\ (MaxTTLSeconds (CRequestLimits cfg) = 0 -> getMaxTTLSeconds cfg = 0)
  /\ (ExpirationMinutes (BRedis (CBackend cfg)) = 10 ->
      600 < MaxTTLSeconds (CRequestLimits cfg) -> getMaxTTLSeconds cfg = 600).
Proof.
  intros E Hpos Hmax.
  rewrite (getMaxTTLSeconds_redis cfg E), mul_exact by lia.
  set (e := ExpirationMinutes _) in *. set (g := MaxTTLSeconds _) in *.
  destruct (Z.ltb_spec 0 e); [|lia].
  repeat split; [| intros; lia | intros; lia].
  destruct (Z.gtb_spec g (e * 60)); lia.
Qed.

Lemma getMaxTTLSeconds_redis_minutes_witness :
  getMaxTTLSeconds Samples.redis3600 = 600.
Proof.
  apply (getMaxTTLSeconds_redis_minutes Samples.redis3600).
  - reflexivity.
  - simpl. lia.
  - unfold GoInt.max_int. simpl. lia.
  - reflexivity.
  - simpl. lia.
Defined.

(** C7: the resolver only tightens the global limit: when
    request_limits.max_ttl_seconds is positive, the resolved ceiling is at
    most request_limits.max_ttl_seconds, for every backend type. *)
Theorem getMaxTTLSeconds_never_loosens (cfg : Configuration) :
  0 < MaxTTLSeconds (CRequestLimits cfg) ->
  getMaxTTLSeconds cfg <= MaxTTLSeconds (CRequestLimits cfg).
Proof.
  intros _.
  destruct (tag_cases cfg) as [E | [E | [E | (N1 & N2 & N3)]]].
  - rewrite (getMaxTTLSeconds_cassandra cfg E). lia.
  - rewrite (getMaxTTLSeconds_aerospike cfg E).
    destruct (0 <? _); lia.
  - rewrite (getMaxTTLSeconds_redis cfg E).
    destruct (0 <? _); lia.
  - rewrite (getMaxTTLSeconds_other cfg N1 N2 N3). lia.
Qed.

Lemma getMaxTTLSeconds_never_loosens_witness :
  getMaxTTLSeconds Samples.aerospike500 <= 500.
Proof.
  apply (getMaxTTLSeconds_never_loosens Samples.aerospike500).
  simpl. lia.
Defined.

End ResolverClaims.

(** ** The decorator chain *)

Section Decoration.
Import Config Backends BackendConfig StartupSpec.
Local Open Scope Z_scope.

Lemma applyCompression_none (c : Config.Compression) (b : Backend) :
  CType c = CompressionNone -> applyCompression c b = Proc.ret b.
Proof. intros E. unfold applyCompression. rewrite E. reflexivity. Qed.

Lemma applyCompression_snappy (c : Config.Compression) (b : Backend) :
  CType c = CompressionSnappy ->
  applyCompression c b = Proc.ret (SnappyCompress b).
Proof. intros E. unfold applyCompression. rewrite E. reflexivity. Qed.

Lemma applyCompression_unknown (c : Config.Compression) (b : Backend) :
  knownCompression (CType c) = false ->
  applyCompression c b =
    Proc.Fatalf "Unknown compression type: %s" [Proc.AStr (CType c)].
Proof.
  unfold knownCompression, applyCompression. intros H.
  apply orb_false_iff in H as [H1 H2]. rewrite H1, H2. reflexivity.
Qed.

Lemma knownCompression_cases (t : CompressionType) :
  t = CompressionNone \/ t = CompressionSnappy \/ knownCompression t = false.
Proof.
  unfold knownCompression.
  destruct (String.eqb_spec t CompressionNone); [tauto|].
  destruct (String.eqb_spec t CompressionSnappy); tauto.
Qed.

(** C3, as the claim states it, fails for two kinds of configuration: with
    compression type none the chain has no Compression layer, and with an
    unrecognised compression type no chain is built at all. *)
Lemma DecorateBackend_not_always_as_stated :
  ~ builtAsStated Samples.memoryNone Samples.appMetrics NewMemoryBackend
  /\ ~ builtAsStated Samples.memoryGzip Samples.appMetrics NewMemoryBackend.
Proof.
  split; intros (chain & R & L & _); vm_compute in R.
  - injection R as <-. vm_compute in L. discriminate.
  - discriminate.
Qed.

(** C3 (amended): for every configuration whose compression type is none
    or snappy, DecorateBackend builds the chain in the order Compression
    (a wrapper for snappy only; none adds no wrapper), SizeLimit (exactly
    when the size ceiling is positive), MetricsLogging, TTLLimiting, the
    last applied outermost, so that a call passes TTLLimiting,
    MetricsLogging, SizeLimit (if configured), Compression (if snappy) and
    then the backend that was given; for any other compression type
    DecorateBackend ends the process and builds no chain. *)
Theorem DecorateBackend_chain_order
    (cfg : Configuration) (m : MetricsRef) (b : Backend) :
  match Proc.result (DecorateBackend cfg m b) with
  | Proc.Returns chain =>
      knownCompression (CType (CCompression cfg)) = true
      /\ layers chain = (builtLayers cfg ++ layers b)%list
      /\ engine chain = engine b
  | Proc.Exits _ => knownCompression (CType (CCompression cfg)) = false
  end.
Proof.
  unfold DecorateBackend, builtLayers.
  destruct (knownCompression_cases (CType (CCompression cfg))) as [E | [E | E]].
  - rewrite (applyCompression_none _ b E), E. simpl.
    destruct (MaxSize (CRequestLimits cfg) >? 0); simpl; auto.
  - rewrite (applyCompression_snappy _ b E), E. simpl.
    destruct (MaxSize (CRequestLimits cfg) >? 0); simpl; auto.
  - rewrite (applyCompression_unknown _ b E). simpl. exact E.
Qed.

(** C9: when max_size_bytes is 0, DecorateBackend installs no SizeLimit
    wrapper: the chain it returns has the SizeLimit layers of the backend
    it was given and no other (none, for an engine), so no write is
    examined for its size. *)
Theorem DecorateBackend_zero_size_unlimited
    (cfg : Configuration) (m : MetricsRef) (b chain : Backend) :
  MaxSize (CRequestLimits cfg) = 0 ->
  Proc.result (DecorateBackend cfg m b) = Proc.Returns chain ->
  size_limits chain = size_limits b
  /\ (is_raw b = true -> ~ In SizeLimit (layers chain)).
Proof.
  intros Z0 R. unfold DecorateBackend in R. rewrite Z0 in R.
  destruct (knownCompression_cases (CType (CCompression cfg))) as [E | [E | E]].
  - rewrite (applyCompression_none _ b E) in R. simpl in R. injection R as <-.
    split; [reflexivity|]. intros Raw. simpl.
    assert (layers b = []) as -> by (destruct b; simpl in *; congruence).
    intros H. repeat (destruct H as [H | H]; [discriminate|]). exact H.
  - rewrite (applyCompression_snappy _ b E) in R. simpl in R. injection R as <-.
    split; [reflexivity|]. intros Raw. simpl.
    assert (layers b = []) as -> by (destruct b; simpl in *; congruence).
    intros H. repeat (destruct H as [H | H]; [discriminate|]). exact H.
  - rewrite (applyCompression_unknown _ b E) in R. discriminate R.
Qed.

Lemma DecorateBackend_zero_size_unlimited_witness :
  size_limits Samples.unlimitedChain = 0%nat.
Proof.
  apply (DecorateBackend_zero_size_unlimited Samples.memoryUnlimited
           Samples.appMetrics NewMemoryBackend Samples.unlimitedChain);
    reflexivity.
Defined.

End Decoration.

(** ** The backend factory and the start-up checks *)

Section Factory.
Import Config Backends BackendConfig StartupSpec.
Local Open Scope Z_scope.

Lemma knownBackend_cases (t : BackendType) :
  t = BackendCassandra \/ t = BackendMemory \/ t = BackendMemcache
  \/ t = BackendAerospike \/ t = BackendRedis
  \/ (knownBackend t = false
      /\ String.eqb t BackendCassandra = false
      /\ String.eqb t BackendMemory = false
      /\ String.eqb t BackendMemcache = false
      /\ String.eqb t BackendAerospike = false
      /\ String.eqb t BackendRedis = false).
Proof.
  unfold knownBackend. simpl.
  destruct (String.eqb_spec t BackendCassandra); [tauto|].
  destruct (String.eqb_spec t BackendMemory); [tauto|].
  destruct (String.eqb_spec t BackendMemcache); [tauto|].
  destruct (String.eqb_spec t BackendAerospike); [tauto|].
  destruct (String.eqb_spec t BackendRedis); tauto.
Qed.

Lemma newBaseBackend_terminates (cfg : Config.Backend) (m : MetricsRef) :
  Proc.terminates (newBaseBackend cfg m) = negb (knownBackend (Type_ cfg)).
Proof.
  unfold newBaseBackend.
  destruct (knownBackend_cases (Type_ cfg))
    as [E | [E | [E | [E | [E | (K & E1 & E2 & E3 & E4 & E5)]]]]];
    try (rewrite E; reflexivity).
  rewrite K, E1, E2, E3, E4, E5. reflexivity.
Qed.

Lemma applyCompression_terminates (c : Config.Compression) (b : Backend) :
  Proc.terminates (applyCompression c b) = negb (knownCompression (CType c)).
Proof.
  destruct (knownCompression_cases (CType c)) as [E | [E | E]].
  - rewrite (applyCompression_none _ _ E), E. reflexivity.
  - rewrite (applyCompression_snappy _ _ E), E. reflexivity.
  - rewrite (applyCompression_unknown _ _ E), E. reflexivity.
Qed.

Lemma RequestLimits_terminates (l : RequestLimits) :
  Proc.terminates (RequestLimits_validateAndLog l) = negativeLimit l.
Proof.
  unfold RequestLimits_validateAndLog, negativeLimit.
  destruct (Z.geb_spec (MaxTTLSeconds l) 0), (Z.ltb_spec (MaxTTLSeconds l) 0);
    try lia; [|reflexivity].
  destruct (Z.geb_spec (MaxSize l) 0), (Z.ltb_spec (MaxSize l) 0);
    try lia; [|reflexivity].
  destruct (Z.geb_spec (MaxNumValues l) 0), (Z.ltb_spec (MaxNumValues l) 0);
    try lia; reflexivity.
Qed.

Lemma bind_terminates {A B} (p : Proc.t A) (f : A -> Proc.t B) :
  Proc.terminates (Proc.bind p f) =
    match Proc.result p with
    | Proc.Returns a => Proc.terminates (f a)
    | Proc.Exits _ => true
    end.
Proof.
  destruct p as [l [a | s]]; simpl; [|reflexivity].
  unfold Proc.terminates, Proc.result. destruct (f a) as [l' r]. reflexivity.
Qed.

Lemma bind_returns_terminates {A B} (p : Proc.t A) (a : A) (f : A -> Proc.t B) :
  Proc.result p = Proc.Returns a ->
  Proc.terminates (Proc.bind p f) = Proc.terminates (f a).
Proof. intros R. rewrite bind_terminates, R. reflexivity. Qed.



End Factory.

(** ** The two routers *)

Section Routers.
Import Config Backends Routing RoutesSpec.

Variables Ver Rev : string.

Lemma addReadRoutes_New (cfg : Configuration) (ds : Backend) (m : MetricsRef) :
  addReadRoutes Ver Rev cfg ds m New =
    Some [mkRoute "GET" "/" (NewIndexHandler (IndexResponse cfg));
          mkRoute "GET" "/status" (NewStatusEndpoint (StatusResponse cfg));
          mkRoute "GET" "/cache"
            (NewGetHandler ds m (AllowSettingKeys (CRequestLimits cfg)));
          mkRoute "GET" "/version" (NewVersionEndpoint Ver Rev)].
Proof. reflexivity. Qed.

Lemma handleRateLimiting_routes (h : Handler) (r : RateLimiting) :
  routes (handleRateLimiting h r) = routes h.
Proof. unfold handleRateLimiting. destruct (Enabled r); reflexivity. Qed.

(** C4: the public router has the write route POST /cache if and only if
    allow_public_write is set (and then no other POST route; without the
    flag no POST route at all), and always has the read routes; the
    administrative router has the read routes and the write route whatever
    the flag is.  Both routers are built without a registration panic. *)
Theorem public_write_gate (cfg : Configuration) (ds : Backend) (m : MetricsRef) :
  exists pub adm,
    NewPublicHandler Ver Rev cfg ds m = Some pub
    /\ NewAdminHandler Ver Rev cfg ds m = Some adm
    /\ registered pub "POST" writePath = AllowPublicWrite (CRoutes cfg)
    /\ has_method pub "POST" = AllowPublicWrite (CRoutes cfg)
    /\ forallb (registered pub "GET") readPaths = true
    /\ registered adm "POST" writePath = true
    /\ forallb (registered adm "GET") readPaths = true.
Proof.
  unfold NewPublicHandler, NewAdminHandler.
  rewrite addReadRoutes_New. simpl.
  destruct (AllowPublicWrite (CRoutes cfg)); simpl;
    eexists; eexists; (split; [reflexivity|]); (split; [reflexivity|]);
    unfold registered, has_method; rewrite handleRateLimiting_routes;
    repeat split; reflexivity.
Qed.

(** C6: when rate limiting is disabled, handleRateLimiting returns the
    inner handler itself, whatever that handler is: the result has no
    limiter in front of it that the inner handler did not already have, so
    the rate limiting layer rejects nothing. *)
Theorem handleRateLimiting_disabled_identity (next : Handler) (cfg : RateLimiting) :
  Enabled cfg = false ->
  handleRateLimiting next cfg = next
  /\ limiters (handleRateLimiting next cfg) = limiters next.
Proof.
  intros E. unfold handleRateLimiting. rewrite E. split; reflexivity.
Qed.

Lemma handleRateLimiting_disabled_identity_witness :
  handleRateLimiting (handleCors (RouterHandler New)) Samples.noLimiter
    = handleCors (RouterHandler New)
  /\ limiters (handleRateLimiting (handleCors (RouterHandler New)) Samples.noLimiter)
     = [].
Proof.
  apply (handleRateLimiting_disabled_identity
           (handleCors (RouterHandler New)) Samples.noLimiter).
  reflexivity.
Defined.

(** The administrative router carries no middleware; the public one has
    the CORS layer and, when rate limiting is enabled, one limiter. *)
Lemma middleware_layers (cfg : Configuration) (ds : Backend) (m : MetricsRef) :
  exists pub adm,
    NewPublicHandler Ver Rev cfg ds m = Some pub
    /\ NewAdminHandler Ver Rev cfg ds m = Some adm
    /\ cors_layers adm = 0 /\ limiters adm = []
    /\ cors_layers pub = 1
    /\ length (limiters pub) = if Enabled (CRateLimiting cfg) then 1 else 0.
Proof.
  unfold NewPublicHandler, NewAdminHandler.
  rewrite addReadRoutes_New. simpl.
  destruct (AllowPublicWrite (CRoutes cfg)); simpl;
    eexists; eexists; (split; [reflexivity|]); (split; [reflexivity|]);
    unfold handleRateLimiting; destruct (Enabled (CRateLimiting cfg));
    repeat split; reflexivity.
Qed.

(** With the limiter enabled the inner handler is wrapped: returning the
    inner handler itself is particular to the disabled case. *)
Lemma handleRateLimiting_enabled_wraps (next : Handler) (cfg : RateLimiting) :
  Enabled cfg = true ->
  limiters (handleRateLimiting next cfg) =
    mkLimiter (GoFloat.ofInt64 (MaxRequestsPerSecond cfg)) 3600000
      ["X-Forwarded-For"; "X-Real-IP"] rateLimitMessage
      "application/json" :: limiters next.
Proof.
  intros E. unfold handleRateLimiting. rewrite E. reflexivity.
Qed.

End Routers.

(** ** The default configuration *)

Section Defaults.
Import Config Backends BackendConfig.

(** C10: with no configuration file and no override from the environment,
    NewConfig returns a configuration in which rate limiting is enabled,
    public writes are allowed, the compression type is snappy and the
    backend type is memory, the tag for which the factory builds the
    in-memory backend. *)
Theorem NewConfig_defaults (k : Utils.Constants) (m : MetricsRef) :
  exists cfg,
    Proc.result (NewConfig k ∅ Viper.FileNotFound) = Proc.Returns cfg
    /\ Enabled (CRateLimiting cfg) = true
    /\ AllowPublicWrite (CRoutes cfg) = true
    /\ CType (CCompression cfg) = CompressionSnappy
    /\ Type_ (CBackend cfg) = BackendMemory
    /\ Proc.result (newBaseBackend (CBackend cfg) m) = Proc.Returns NewMemoryBackend.
Proof.
  eexists. split; [vm_compute; reflexivity|].
  repeat split; reflexivity.
Qed.

End Defaults.

(** ** [Configuration.ValidateAndLog] as a whole *)

Section Validation.
Import Config StartupSpec.

Variable Backend_validateAndLog :
  Config.Backend -> Proc.t (Config.Backend * option string).

(** A negative limit ends the whole validation, before the backend and the
    compression are looked at. *)
Lemma ValidateAndLog_negative_limit (cfg : Configuration) :
  negativeLimit (CRequestLimits cfg) = true ->
  Proc.terminates (ValidateAndLog Backend_validateAndLog cfg) = true.
Proof.
  intros N. unfold ValidateAndLog.
  do 4 (rewrite (bind_returns_terminates _ tt) by reflexivity).
  rewrite bind_terminates.
  rewrite <- RequestLimits_terminates in N. unfold Proc.terminates in N.
  destruct (Proc.result (RequestLimits_validateAndLog (CRequestLimits cfg)));
    [discriminate | reflexivity].
Qed.

(** The validation of the compression type agrees with [applyCompression]
    on which types are fatal. *)
Lemma Compression_validateAndLog_terminates (c : Config.Compression) :
  Proc.terminates (Compression_validateAndLog c) = negb (knownCompression (CType c)).
Proof.
  unfold Compression_validateAndLog, knownCompression.
  destruct (String.eqb (CType c) CompressionNone || String.eqb (CType c) CompressionSnappy);
    reflexivity.
Qed.

End Validation.

(** The metrics part of the validation, which the design document leaves
    out of its scope, has fatal cases of its own: a metrics type that is
    not supported, with no supported metrics enabled, ends the process
    although the backend tag, the compression type and the limits are
    fine. *)
Lemma ValidateAndLog_unsupported_metrics :
  Proc.terminates
    (Config.ValidateAndLog (fun b => Proc.ret (b, None)) Samples.memoryUnlimited)
    = false
  /\ Proc.terminates
       (Config.ValidateAndLog (fun b => Proc.ret (b, None)) Samples.statsdMetrics)
     = true.
Proof. split; reflexivity. Qed.

(** * Further properties of the code *)

(** ** The resolver, beyond the ceiling itself *)

Section ResolverMore.
Import Config BackendConfig Observe.
Local Open Scope Z_scope.

Lemma getMaxTTLSeconds_closed (cfg : Configuration) :
  getMaxTTLSeconds cfg =
    match backendCeiling (CBackend cfg) with
    | Some c => Z.min (MaxTTLSeconds (CRequestLimits cfg)) c
    | None => MaxTTLSeconds (CRequestLimits cfg)
    end.
Proof.
  unfold backendCeiling.
  destruct (tag_cases cfg) as [E | [E | [E | (N1 & N2 & N3)]]].
  - rewrite (getMaxTTLSeconds_cassandra cfg E), E. reflexivity.
  - rewrite (getMaxTTLSeconds_aerospike cfg E), E. simpl.
    rewrite Z.gtb_ltb. destruct (0 <? _); reflexivity.
  - rewrite (getMaxTTLSeconds_redis cfg E), E. simpl.
    rewrite Z.gtb_ltb. destruct (0 <? _); reflexivity.
  - rewrite (getMaxTTLSeconds_other cfg N1 N2 N3).
    apply String.eqb_neq in N1, N2, N3. rewrite N1, N2, N3. reflexivity.
Qed.

(** X1: the resolved ceiling never exceeds the global max_ttl_seconds,
    whatever its sign, and for a Cassandra backend it never exceeds 2400
    either. *)
Theorem getMaxTTLSeconds_upper_bounds (cfg : Configuration) :
  getMaxTTLSeconds cfg <=
    if String.eqb (Type_ (CBackend cfg)) BackendCassandra
    then Z.min (MaxTTLSeconds (CRequestLimits cfg)) 2400
    else MaxTTLSeconds (CRequestLimits cfg).
Proof.
  rewrite getMaxTTLSeconds_closed. unfold backendCeiling.
  destruct (String.eqb (Type_ (CBackend cfg)) BackendCassandra).
  - unfold Utils.CASSANDRA_DEFAULT_TTL_SECONDS. lia.
  - destruct (String.eqb _ BackendAerospike).
    + destruct (_ >? 0); lia.
    + destruct (String.eqb _ BackendRedis); [destruct (_ >? 0)|]; lia.
Qed.

(** X2: the resolver is monotone in the global limit: with the backend
    part of the configuration unchanged, a larger max_ttl_seconds never
    gives a smaller ceiling. *)
Theorem getMaxTTLSeconds_monotone (cfg : Configuration) (g1 g2 : Z) :
  g1 <= g2 ->
  getMaxTTLSeconds (withMaxTTL cfg g1) <= getMaxTTLSeconds (withMaxTTL cfg g2).
Proof.
  intros H. rewrite !getMaxTTLSeconds_closed. simpl.
  destruct (backendCeiling (CBackend cfg)); lia.
Qed.

Lemma getMaxTTLSeconds_monotone_witness :
  getMaxTTLSeconds (withMaxTTL Samples.redis3600 100)
  <= getMaxTTLSeconds (withMaxTTL Samples.redis3600 700).
Proof.
  apply (getMaxTTLSeconds_monotone Samples.redis3600 100 700). lia.
Defined.

(** X3: resolving is idempotent: a configuration whose max_ttl_seconds is
    already the resolved ceiling resolves to that same ceiling. *)
Theorem getMaxTTLSeconds_idempotent (cfg : Configuration) :
  getMaxTTLSeconds (withMaxTTL cfg (getMaxTTLSeconds cfg)) = getMaxTTLSeconds cfg.
Proof.
  rewrite (getMaxTTLSeconds_closed (withMaxTTL _ _)). simpl.
  rewrite getMaxTTLSeconds_closed.
  destruct (backendCeiling (CBackend cfg)); lia.
Qed.

(** X4: a backend-level TTL is ignored, and the global max_ttl_seconds
    returned as it is, when the backend is Aerospike with a default TTL
    that is zero or negative, when it is Redis with an expiration that is
    zero or negative, and when it is any backend other than Cassandra,
    Aerospike and Redis. *)
Theorem getMaxTTLSeconds_ignores_unset (cfg : Configuration) :
  (Type_ (CBackend cfg) = BackendAerospike
   /\ DefaultTTLSecs (BAerospike (CBackend cfg)) <= 0)
  \/ (Type_ (CBackend cfg) = BackendRedis
      /\ ExpirationMinutes (BRedis (CBackend cfg)) <= 0)
  \/ (Type_ (CBackend cfg) <> BackendCassandra
      /\ Type_ (CBackend cfg) <> BackendAerospike
      /\ Type_ (CBackend cfg) <> BackendRedis) ->
  getMaxTTLSeconds cfg = MaxTTLSeconds (CRequestLimits cfg).
Proof.
  intros [(E & H) | [(E & H) | (N1 & N2 & N3)]].
  - rewrite (getMaxTTLSeconds_aerospike cfg E).
    destruct (Z.ltb_spec 0 (DefaultTTLSecs (BAerospike (CBackend cfg)))); lia.
  - rewrite (getMaxTTLSeconds_redis cfg E).
    destruct (Z.ltb_spec 0 (ExpirationMinutes (BRedis (CBackend cfg)))); lia.
  - apply getMaxTTLSeconds_other; assumption.
Qed.

Lemma getMaxTTLSeconds_ignores_unset_witness :
  getMaxTTLSeconds Samples.memcache3600 = 3600.
Proof.
  apply (getMaxTTLSeconds_ignores_unset Samples.memcache3600).
  right. right. repeat split; discriminate.
Defined.

(** X5: the resolver reads the global limit, the backend tag and the one
    TTL field of the selected backend, and nothing else: two
    configurations that agree on these resolve to the same ceiling. *)
Theorem getMaxTTLSeconds_frame (c1 c2 : Configuration) :
  MaxTTLSeconds (CRequestLimits c1) = MaxTTLSeconds (CRequestLimits c2) ->
  Type_ (CBackend c1) = Type_ (CBackend c2) ->
  (Type_ (CBackend c1) = BackendAerospike ->
   DefaultTTLSecs (BAerospike (CBackend c1)) = DefaultTTLSecs (BAerospike (CBackend c2))) ->
  (Type_ (CBackend c1) = BackendRedis ->
   ExpirationMinutes (BRedis (CBackend c1)) = ExpirationMinutes (BRedis (CBackend c2))) ->
  getMaxTTLSeconds c1 = getMaxTTLSeconds c2.
Proof.
  intros G T A R. unfold getMaxTTLSeconds. rewrite <- G, <- T.
  destruct (String.eqb_spec (Type_ (CBackend c1)) BackendCassandra); [reflexivity|].
  destruct (String.eqb_spec (Type_ (CBackend c1)) BackendAerospike) as [E|_].
  { rewrite (A E). reflexivity. }
  destruct (String.eqb_spec (Type_ (CBackend c1)) BackendRedis) as [E|_].
  { rewrite (R E). reflexivity. }
  reflexivity.
Qed.

Lemma getMaxTTLSeconds_frame_witness :
  getMaxTTLSeconds Samples.memcache3600 = getMaxTTLSeconds Samples.memcache3600'.
Proof.
  apply (getMaxTTLSeconds_frame Samples.memcache3600 Samples.memcache3600');
    first [reflexivity | discriminate].
Defined.

(** X6: for a configuration whose TTL numbers are in range, the resolved
    ceiling is not negative, and it is 0 (no ceiling) exactly when the
    global max_ttl_seconds is 0: a positive limit is never resolved to
    no limit. *)
Theorem getMaxTTLSeconds_zero_iff (cfg : Configuration) :
  TTLSpec.sane cfg ->
  0 <= getMaxTTLSeconds cfg
  /\ (getMaxTTLSeconds cfg = 0 <-> MaxTTLSeconds (CRequestLimits cfg) = 0).
Proof.
  intros (Hg & Ha & Hr).
  assert (Hmul := mul_exact (ExpirationMinutes (BRedis (CBackend cfg))) 60 Hr).
  rewrite getMaxTTLSeconds_closed. unfold backendCeiling.
  destruct (String.eqb _ BackendCassandra).
  { unfold Utils.CASSANDRA_DEFAULT_TTL_SECONDS. lia. }
  destruct (String.eqb _ BackendAerospike).
  { destruct (Z.gtb_spec (DefaultTTLSecs (BAerospike (CBackend cfg))) 0); lia. }
  destruct (String.eqb _ BackendRedis); [|lia].
  destruct (Z.gtb_spec (ExpirationMinutes (BRedis (CBackend cfg))) 0); [|lia].
  rewrite Hmul. lia.
Qed.

Lemma getMaxTTLSeconds_zero_iff_witness :
  0 <= getMaxTTLSeconds Samples.redis3600.
Proof.
  apply (getMaxTTLSeconds_zero_iff Samples.redis3600).
  unfold TTLSpec.sane, GoInt.max_int. simpl. lia.
Defined.

(** X7: for a Redis backend with a positive expiration the ceiling is the
    smaller of the global limit and the expiration times 60 as Go's int
    computes it, with wrap-around: an expiration whose seconds do not fit
    the int can make the ceiling 0 or negative although every configured
    number is positive. *)
Theorem getMaxTTLSeconds_redis_wraps (cfg : Configuration) :
  Type_ (CBackend cfg) = BackendRedis ->
  0 < ExpirationMinutes (BRedis (CBackend cfg)) ->
  getMaxTTLSeconds cfg =
    Z.min (MaxTTLSeconds (CRequestLimits cfg))
      (GoInt.wrap (ExpirationMinutes (BRedis (CBackend cfg)) * 60)).
Proof.
  intros E H. rewrite (getMaxTTLSeconds_redis cfg E).
  destruct (Z.ltb_spec 0 (ExpirationMinutes (BRedis (CBackend cfg)))); [|lia].
  reflexivity.
Qed.

Lemma getMaxTTLSeconds_redis_wraps_witness :
  getMaxTTLSeconds Samples.redisOverflow = 0.
Proof.
  rewrite (getMaxTTLSeconds_redis_wraps Samples.redisOverflow).
  - reflexivity.
  - reflexivity.
  - reflexivity.
Defined.

End ResolverMore.

(** ** The factory and the decoration, beyond the order of the layers *)

Lemma newBaseBackend_context_raw (cfg : Config.Backend) (m : Backends.MetricsRef) :
  match Proc.result (BackendConfig.newBaseBackend cfg m) with
  | Proc.Returns b => Backends.is_raw b = true
  | Proc.Exits _ => True
  end.
Proof.
  unfold BackendConfig.newBaseBackend.
  repeat (destruct (String.eqb _ _); [exact eq_refl|]). exact I.
Qed.

Section FactoryMore.
Import Config Backends BackendConfig StartupSpec Observe.
Local Open Scope Z_scope.

Lemma bind_result {A B} (p : Proc.t A) (f : A -> Proc.t B) :
  Proc.result (Proc.bind p f) =
    match Proc.result p with
    | Proc.Returns a => Proc.result (f a)
    | Proc.Exits s => Proc.Exits s
    end.
Proof.
  destruct p as [l [a | s]]; simpl; [|reflexivity].
  unfold Proc.result. destruct (f a). reflexivity.
Qed.

Lemma applyCompression_returns (c : Config.Compression) (b r : Backend) :
  Proc.result (applyCompression c b) = Proc.Returns r ->
  applyCompression c b = Proc.ret r
  /\ (r = b \/ r = SnappyCompress b).
Proof.
  destruct (knownCompression_cases (CType c)) as [E | [E | E]].
  - rewrite (applyCompression_none _ b E). intros [= <-]. auto.
  - rewrite (applyCompression_snappy _ b E). intros [= <-]. auto.
  - rewrite (applyCompression_unknown _ b E). discriminate.
Qed.

Lemma DecorateBackend_returns
    (cfg : Configuration) (m : MetricsRef) (b chain : Backend) :
  Proc.result (DecorateBackend cfg m b) = Proc.Returns chain ->
  ttl_limits chain = getMaxTTLSeconds cfg :: ttl_limits b
  /\ metrics_handles chain = m :: metrics_handles b
  /\ size_ceilings chain =
       ((if 0 <? MaxSize (CRequestLimits cfg)
         then [MaxSize (CRequestLimits cfg)] else []) ++ size_ceilings b)%list
  /\ fst (DecorateBackend cfg m b) = [].
Proof.
  unfold DecorateBackend. rewrite bind_result.
  destruct (Proc.result (applyCompression (CCompression cfg) b)) as [r|] eqn:R;
    [|discriminate].
  destruct (applyCompression_returns _ _ _ R) as (-> & Hr).
  rewrite <- Z.gtb_ltb. simpl. intros [= <-].
  destruct Hr as [-> | ->]; destruct (MaxSize (CRequestLimits cfg) >? 0);
    simpl; auto.
Qed.

(** X8: the decorators are given the values of the configuration: the TTL
    wrapper the resolved ceiling, the metrics wrapper the metrics handle
    that was passed in, and the size wrapper, present only for a positive
    max_size_bytes (a negative one installs none, like 0), that
    max_size_bytes.  Nothing is written to the log. *)
Theorem DecorateBackend_arguments
    (cfg : Configuration) (m : MetricsRef) (b chain : Backend) :
  Proc.result (DecorateBackend cfg m b) = Proc.Returns chain ->
  ttl_limits chain = getMaxTTLSeconds cfg :: ttl_limits b
  /\ metrics_handles chain = m :: metrics_handles b
  /\ size_ceilings chain =
       ((if 0 <? MaxSize (CRequestLimits cfg)
         then [MaxSize (CRequestLimits cfg)] else []) ++ size_ceilings b)%list
  /\ fst (DecorateBackend cfg m b) = [].
Proof. exact (DecorateBackend_returns cfg m b chain). Qed.

Lemma DecorateBackend_arguments_witness :
  size_ceilings Samples.limitedChain = [10].
Proof.
  apply (DecorateBackend_arguments Samples.memoryLimited Samples.appMetrics
           NewMemoryBackend Samples.limitedChain).
  reflexivity.
Defined.

Lemma newBaseBackendWith_unknown (E : Constructors) (cfg : Config.Backend)
    (m : MetricsRef) :
  knownBackend (Type_ cfg) = false ->
  newBaseBackendWith E cfg m =
    Proc.Fatalf "Unknown backend type: %s" [Proc.AStr (Type_ cfg)].
Proof.
  intros K. unfold newBaseBackendWith.
  destruct (knownBackend_cases (Type_ cfg))
    as [T | [T | [T | [T | [T | (_ & E1 & E2 & E3 & E4 & E5)]]]]];
    try (rewrite T in K; discriminate K).
  rewrite E1, E2, E3, E4, E5. reflexivity.
Qed.

Lemma bind_returned {A B} (l : list Proc.Line) (a : A) (f : A -> Proc.t B) :
  Proc.bind (l, Proc.Returns a) f = ((l ++ fst (f a))%list, snd (f a)).
Proof. simpl. destruct (f a). reflexivity. Qed.

Lemma DecorateBackend_known (cfg : Configuration) (m : MetricsRef) (b : Backend) :
  knownCompression (CType (CCompression cfg)) = true ->
  fst (DecorateBackend cfg m b) = []
  /\ Proc.terminates (DecorateBackend cfg m b) = false.
Proof.
  intros K. unfold DecorateBackend.
  destruct (knownCompression_cases (CType (CCompression cfg))) as [C | [C | C]].
  - rewrite (applyCompression_none _ _ C). split; reflexivity.
  - rewrite (applyCompression_snappy _ _ C). split; reflexivity.
  - rewrite C in K. discriminate K.
Qed.

Lemma DecorateBackend_unknown (cfg : Configuration) (m : MetricsRef) (b : Backend) :
  knownCompression (CType (CCompression cfg)) = false ->
  DecorateBackend cfg m b =
    Proc.Fatalf "Unknown compression type: %s" [Proc.AStr (CType (CCompression cfg))].
Proof.
  intros K. unfold DecorateBackend.
  rewrite (applyCompression_unknown _ _ K). reflexivity.
Qed.

(** X9: what NewBackend writes and in which order it fails, whatever the
    engine constructors do.  For an unknown backend tag it ends the
    process with status 1 after the single fatal line that names the tag:
    no constructor is called and the compression type is not looked at.
    When the constructor for the tag ends the process, NewBackend ends
    with the log and the status of the constructor and decorates nothing.
    When the constructor returns, the decoration adds no line for a known
    compression type, and for an unknown one the single fatal line that
    names it, ending the process with status 1. *)
Theorem NewBackend_fatal_line
    (E : Constructors) (cfg : Configuration) (m : MetricsRef) :
  (knownBackend (Type_ (CBackend cfg)) = false ->
   NewBackendWith E cfg m =
     ([Proc.mkLine Proc.FatalLevel "Unknown backend type: %s"
         [Proc.AStr (Type_ (CBackend cfg))]], Proc.Exits 1))
  /\ (forall l s,
        newBaseBackendWith E (CBackend cfg) m = (l, Proc.Exits s) ->
        NewBackendWith E cfg m = (l, Proc.Exits s))
  /\ (forall l raw,
        newBaseBackendWith E (CBackend cfg) m = (l, Proc.Returns raw) ->
        if knownCompression (CType (CCompression cfg))
        then fst (NewBackendWith E cfg m) = l
             /\ Proc.terminates (NewBackendWith E cfg m) = false
        else NewBackendWith E cfg m =
               ((l ++ [Proc.mkLine Proc.FatalLevel "Unknown compression type: %s"
                         [Proc.AStr (CType (CCompression cfg))]])%list,
                Proc.Exits 1)).
Proof.
  unfold NewBackendWith. repeat split.
  - intros K. rewrite (newBaseBackendWith_unknown E _ m K). reflexivity.
  - intros l s B. rewrite B. reflexivity.
  - intros l raw B. rewrite B, bind_returned.
    destruct (knownCompression (CType (CCompression cfg))) eqn:K.
    + destruct (DecorateBackend_known cfg m raw K) as (L & T).
      unfold Proc.terminates, Proc.result in *.
      cbn [fst snd]. rewrite L, app_nil_r. auto.
    + rewrite (DecorateBackend_unknown cfg m raw K). reflexivity.
Qed.

Lemma NewBackend_fatal_line_witness :
  NewBackendWith Samples.redisDown Samples.unknownBoth Samples.appMetrics =
    ([Proc.mkLine Proc.FatalLevel "Unknown backend type: %s" [Proc.AStr "etcd"]],
     Proc.Exits 1).
Proof.
  apply (NewBackend_fatal_line Samples.redisDown Samples.unknownBoth
           Samples.appMetrics).
  reflexivity.
Defined.

(** X10: a chain that NewBackend returns is the engine the factory built
    for the tag, wrapped in the layers of the configuration and in no
    other, each with the argument the configuration gives it. *)
Theorem NewBackend_chain (cfg : Configuration) (m : MetricsRef) (chain : Backend) :
  Proc.result (NewBackend cfg m) = Proc.Returns chain ->
  Proc.result (newBaseBackend (CBackend cfg) m) = Proc.Returns (engine chain)
  /\ layers chain = builtLayers cfg
  /\ ttl_limits chain = [getMaxTTLSeconds cfg]
  /\ metrics_handles chain = [m]
  /\ size_ceilings chain =
       (if 0 <? MaxSize (CRequestLimits cfg)
        then [MaxSize (CRequestLimits cfg)] else []).
Proof.
  unfold NewBackend. rewrite bind_result.
  destruct (Proc.result (newBaseBackend (CBackend cfg) m)) as [raw|] eqn:B;
    [|discriminate].
  intros R.
  assert (Raw : is_raw raw = true).
  { pose proof (newBaseBackend_context_raw (CBackend cfg) m) as H.
    rewrite B in H. exact H. }
  assert (engine raw = raw /\ layers raw = [] /\ ttl_limits raw = []
          /\ metrics_handles raw = [] /\ size_ceilings raw = [])
    as (Er & Lr & Tr & Mr & Sr)
    by (destruct raw; simpl in Raw; try discriminate; repeat split).
  destruct (DecorateBackend_returns cfg m raw chain R) as (T & M & S & _).
  rewrite T, M, S, Tr, Mr, Sr, app_nil_r.
  unfold DecorateBackend in R. rewrite bind_result in R.
  destruct (Proc.result (applyCompression (CCompression cfg) raw)) as [r|] eqn:C;
    [|discriminate].
  simpl in R. injection R as <-.
  unfold builtLayers.
  destruct (knownCompression_cases (CType (CCompression cfg))) as [K | [K | K]].
  - rewrite (applyCompression_none _ _ K) in C. injection C as <-. rewrite K.
    destruct (MaxSize (CRequestLimits cfg) >? 0); simpl; rewrite Er, Lr; auto.
  - rewrite (applyCompression_snappy _ _ K) in C. injection C as <-. rewrite K.
    destruct (MaxSize (CRequestLimits cfg) >? 0); simpl; rewrite Er, Lr; auto.
  - rewrite (applyCompression_unknown _ _ K) in C. discriminate.
Qed.

Lemma NewBackend_chain_witness :
  layers Samples.limitedChain = builtLayers Samples.memoryLimited.
Proof.
  apply (NewBackend_chain Samples.memoryLimited Samples.appMetrics
           Samples.limitedChain).
  reflexivity.
Defined.

End FactoryMore.

(** ** The validation, step by step *)

Section ValidationMore.
Import Config Backends BackendConfig StartupSpec Observe.
Local Open Scope Z_scope.

Lemma RequestLimits_result (l : RequestLimits) :
  Proc.result (RequestLimits_validateAndLog l) =
    if negativeLimit l then Proc.Exits 1 else Proc.Returns tt.
Proof.
  unfold RequestLimits_validateAndLog, negativeLimit.
  destruct (Z.geb_spec (MaxTTLSeconds l) 0), (Z.ltb_spec (MaxTTLSeconds l) 0);
    try lia; [|reflexivity].
  destruct (Z.geb_spec (MaxSize l) 0), (Z.ltb_spec (MaxSize l) 0);
    try lia; [|reflexivity].
  destruct (Z.geb_spec (MaxNumValues l) 0), (Z.ltb_spec (MaxNumValues l) 0);
    try lia; reflexivity.
Qed.

Lemma Compression_result (c : Config.Compression) :
  Proc.result (Compression_validateAndLog c) =
    if knownCompression (CType c) then Proc.Returns tt else Proc.Exits 1.
Proof.
  unfold Compression_validateAndLog, knownCompression.
  destruct (String.eqb (CType c) CompressionNone || String.eqb (CType c) CompressionSnappy);
    reflexivity.
Qed.

Lemma Routes_result (r : Routes) :
  Proc.result (Routes_validateAndLog r) = Proc.Returns tt.
Proof. unfold Routes_validateAndLog. destruct (AllowPublicWrite r); reflexivity. Qed.

(** X11: the limits check names the first negative limit in the order
    max_ttl_seconds, max_size_bytes, max_num_values: the line it ends the
    process with is the one of that limit, also when later limits are
    negative too; with no negative limit there is no fatal line. *)
Theorem RequestLimits_first_negative (l : RequestLimits) :
  fatal_format (RequestLimits_validateAndLog l) =
    if MaxTTLSeconds l <? 0
    then Some "invalid config.request_limits.max_ttl_seconds: %d. Value cannot be negative."
    else if MaxSize l <? 0
    then Some "invalid config.request_limits.max_size_bytes: %d. Value cannot be negative."
    else if MaxNumValues l <? 0
    then Some "invalid config.request_limits.max_num_values: %d. Value cannot be negative."
    else None.
Proof.
  unfold RequestLimits_validateAndLog.
  destruct (Z.geb_spec (MaxTTLSeconds l) 0), (Z.ltb_spec (MaxTTLSeconds l) 0);
    try lia; [|reflexivity].
  destruct (Z.geb_spec (MaxSize l) 0), (Z.ltb_spec (MaxSize l) 0);
    try lia; [|reflexivity].
  destruct (Z.geb_spec (MaxNumValues l) 0), (Z.ltb_spec (MaxNumValues l) 0);
    try lia; reflexivity.
Qed.

(** X12: the validation of the compression type and the compression step
    of the decoration end the process for the same types: a type that
    passes [Compression.validateAndLog] is never fatal in
    [applyCompression], and conversely. *)
Theorem compression_checks_agree (c : Config.Compression) (b : Backend) :
  Proc.terminates (Compression_validateAndLog c)
  = Proc.terminates (applyCompression c b).
Proof.
  rewrite applyCompression_terminates, Compression_validateAndLog_terminates.
  reflexivity.
Qed.

Lemma Metrics_result (m : Metrics) :
  Proc.result (Metrics_validateAndLog m) =
    if metricsFatal m then Proc.Exits 1
    else Proc.Returns (if influxSelected m then setInfluxEnabled m else m).
Proof.
  destruct m as [t [ie h d me u pw al] [pp pn ps pt pe]].
  unfold Metrics_validateAndLog, metricsFatal, influxSelected, influxIncomplete,
    unsupportedType, InfluxMetrics_validateAndLog,
    PrometheusMetrics_validateAndLog, setInfluxEnabled.
  cbn [MType Influx Prometheus InfluxEnabled InfluxHost Database Measurement
       Username InfluxPassword AlignTimestamps PromPort PromNamespace
       Subsystem TimeoutMillisRaw PromEnabled].
  unfold MetricsInflux, MetricsNone.
  destruct (String.eqb t "influx") eqn:Ti, ie, (String.eqb h "") eqn:Hh,
    (String.eqb d "") eqn:Hd, (String.eqb me "") eqn:Hm, pe, (pp =? 0) eqn:Hp,
    (String.eqb t "none") eqn:Tn, (String.eqb t "") eqn:Te;
    repeat (cbn -[String.eqb Z.eqb]; rewrite ?Ti, ?Hh, ?Hd, ?Hm, ?Hp, ?Tn, ?Te);
    reflexivity.
Qed.

(** X13: the metrics validation ends the process exactly when influx is
    selected (by type or by its enabled flag) without host, database or
    measurement, or prometheus is enabled with port 0, or the type is
    neither empty, none nor influx while no supported metrics are enabled;
    otherwise it returns the metrics it was given, with the influx enabled
    flag set when influx is selected and nothing else changed. *)
Theorem Metrics_validateAndLog_outcome (m : Metrics) :
  Proc.result (Metrics_validateAndLog m) =
    if metricsFatal m then Proc.Exits 1
    else Proc.Returns (if influxSelected m then setInfluxEnabled m else m).
Proof. exact (Metrics_result m). Qed.

(** X14: validating metrics twice changes nothing more: the metrics that
    the validation returns pass it again and come back as they are. *)
Theorem Metrics_validateAndLog_idempotent (m m' : Metrics) :
  Proc.result (Metrics_validateAndLog m) = Proc.Returns m' ->
  Proc.result (Metrics_validateAndLog m') = Proc.Returns m'.
Proof.
  rewrite !Metrics_result.
  destruct m as [t [ie h d me u pw al] [pp pn ps pt pe]].
  unfold metricsFatal, influxSelected, influxIncomplete, unsupportedType,
    setInfluxEnabled.
  cbn [MType Influx Prometheus InfluxEnabled InfluxHost Database Measurement
       Username InfluxPassword AlignTimestamps PromPort PromNamespace
       Subsystem TimeoutMillisRaw PromEnabled].
  unfold MetricsInflux, MetricsNone.
  destruct (String.eqb t "influx") eqn:Ti, ie, (String.eqb h "") eqn:Hh,
    (String.eqb d "") eqn:Hd, (String.eqb me "") eqn:Hm, pe, (pp =? 0) eqn:Hp,
    (String.eqb t "none") eqn:Tn, (String.eqb t "") eqn:Te;
    cbn -[String.eqb Z.eqb]; intros [= <-];
    repeat (cbn -[String.eqb Z.eqb]; rewrite ?Ti, ?Hh, ?Hd, ?Hm, ?Hp, ?Tn, ?Te);
    reflexivity.
Qed.

Lemma Metrics_validateAndLog_idempotent_witness :
  Proc.result (Metrics_validateAndLog Samples.influxValidated)
  = Proc.Returns Samples.influxValidated.
Proof.
  apply (Metrics_validateAndLog_idempotent Samples.influxByType).
  reflexivity.
Defined.

Variable Backend_validateAndLog :
  Config.Backend -> Proc.t (Config.Backend * option string).

Lemma ValidateAndLog_result (cfg : Configuration) :
  Proc.result (ValidateAndLog Backend_validateAndLog cfg) =
    if negativeLimit (CRequestLimits cfg) then Proc.Exits 1
    else match Proc.result (Backend_validateAndLog (CBackend cfg)) with
         | Proc.Exits s => Proc.Exits s
         | Proc.Returns (_, Some _) => Proc.Exits 1
         | Proc.Returns (b, None) =>
             if negb (knownCompression (CType (CCompression cfg)))
             then Proc.Exits 1
             else if metricsFatal (CMetrics cfg) then Proc.Exits 1
             else Proc.Returns
                    (withMetrics (withBackend cfg b)
                       (if influxSelected (CMetrics cfg)
                        then setInfluxEnabled (CMetrics cfg)
                        else CMetrics cfg))
         end.
Proof.
  unfold ValidateAndLog.
  do 4 (rewrite bind_result; cbn [Proc.result Proc.Infof snd]).
  assert (R : Proc.result (RateLimiting_validateAndLog (CRateLimiting cfg))
              = Proc.Returns tt) by reflexivity.
  rewrite ?R.
  rewrite bind_result, RequestLimits_result.
  destruct (negativeLimit (CRequestLimits cfg)); [reflexivity|].
  rewrite bind_result.
  destruct (Proc.result (Backend_validateAndLog (CBackend cfg))) as [[b [e|]]|s];
    [reflexivity| |reflexivity].
  rewrite bind_result. cbn [Proc.result Proc.ret snd fst].
  rewrite bind_result, Compression_result.
  destruct (knownCompression (CType (CCompression cfg))); [|reflexivity].
  cbn [negb].
  rewrite bind_result, Metrics_result.
  destruct (metricsFatal (CMetrics cfg)); [reflexivity|].
  rewrite bind_result, Routes_result. reflexivity.
Qed.

Lemma ValidateAndLog_terminates (cfg : Configuration) :
  Proc.terminates (ValidateAndLog Backend_validateAndLog cfg)
  = negativeLimit (CRequestLimits cfg)
    || validationFails (Backend_validateAndLog (CBackend cfg))
    || negb (knownCompression (CType (CCompression cfg)))
    || metricsFatal (CMetrics cfg).
Proof.
  unfold Proc.terminates, validationFails. rewrite ValidateAndLog_result.
  destruct (negativeLimit (CRequestLimits cfg)); [reflexivity|].
  destruct (Proc.result (Backend_validateAndLog (CBackend cfg))) as [[b [e|]]|s];
    try reflexivity.
  destruct (knownCompression (CType (CCompression cfg))); [|reflexivity].
  destruct (metricsFatal (CMetrics cfg)); reflexivity.
Qed.


Lemma NewBackendWith_terminates (E : Constructors) (cfg : Configuration)
    (m : MetricsRef) :
  Proc.terminates (NewBackendWith E cfg m) =
    match Proc.result (newBaseBackendWith E (CBackend cfg) m) with
    | Proc.Returns _ => negb (knownCompression (CType (CCompression cfg)))
    | Proc.Exits _ => true
    end.
Proof.
  unfold NewBackendWith. rewrite bind_terminates.
  destruct (Proc.result (newBaseBackendWith E (CBackend cfg) m)) as [raw|s];
    [|reflexivity].
  unfold DecorateBackend. rewrite bind_terminates.
  assert (C := applyCompression_terminates (CCompression cfg) raw).
  unfold Proc.terminates in C.
  destruct (Proc.result (applyCompression (CCompression cfg) raw)).
  - rewrite <- C. reflexivity.
  - exact C.
Qed.

(** X16: a configuration that the validation has returned has the request
    limits and the compression type it came with, no negative limit and a
    known compression type.  The decoration of a backend therefore cannot
    end the process any more: NewBackend ends it exactly when the factory
    does (an unknown backend tag, or a constructor that fails), whatever
    the constructors and the backend validation are. *)
Theorem validated_config_builds
    (E : Constructors) (cfg cfg' : Configuration) (m : MetricsRef) :
  Proc.result (ValidateAndLog Backend_validateAndLog cfg) = Proc.Returns cfg' ->
  CRequestLimits cfg' = CRequestLimits cfg
  /\ CCompression cfg' = CCompression cfg
  /\ 0 <= MaxTTLSeconds (CRequestLimits cfg')
  /\ 0 <= MaxSize (CRequestLimits cfg')
  /\ 0 <= MaxNumValues (CRequestLimits cfg')
  /\ (forall b, Proc.terminates (DecorateBackend cfg' m b) = false)
  /\ Proc.terminates (NewBackendWith E cfg' m)
     = Proc.terminates (newBaseBackendWith E (CBackend cfg') m).
Proof.
  rewrite ValidateAndLog_result.
  destruct (negativeLimit (CRequestLimits cfg)) eqn:N; [discriminate|].
  destruct (Proc.result (Backend_validateAndLog (CBackend cfg))) as [[b [e|]]|s];
    try discriminate.
  destruct (knownCompression (CType (CCompression cfg))) eqn:K; [|discriminate].
  cbn [negb].
  destruct (metricsFatal (CMetrics cfg)); [discriminate|].
  intros [= <-]. cbn [withMetrics withBackend CRequestLimits CCompression CBackend].
  unfold negativeLimit in N.
  apply orb_false_iff in N as [N N3]. apply orb_false_iff in N as [N1 N2].
  apply Z.ltb_ge in N1, N2, N3.
  repeat split; auto.
  - intros b0. apply DecorateBackend_known. exact K.
  - rewrite NewBackendWith_terminates. unfold Proc.terminates.
    cbn [withMetrics withBackend CRequestLimits CCompression CBackend].
    rewrite K. reflexivity.
Qed.

End ValidationMore.

Lemma validated_config_builds_witness :
  Proc.terminates
    (BackendConfig.NewBackendWith Samples.redisDown Samples.memoryLimited
       Samples.appMetrics)
  = Proc.terminates
      (BackendConfig.newBaseBackendWith Samples.redisDown
         (Config.CBackend Samples.memoryLimited) Samples.appMetrics).
Proof.
  apply (validated_config_builds Samples.passing Samples.redisDown
           Samples.memoryLimited Samples.memoryLimited Samples.appMetrics).
  reflexivity.
Defined.

(** ** The routers, beyond the write gate *)

Section RoutersMore.
Import Config Backends Routing RoutesSpec Observe.

Variables Ver Rev : string.

(** X17: the administrative router has the routes of the public router, in
    the same order and with the same handlers, followed by the write
    route when public writes are off; with public writes on the two have
    the same routes.  In both, reading and writing /cache are bound to the
    backend, the metrics handle and the allow_setting_keys flag that were
    passed in, and writing to max_num_values. *)
Theorem routers_share_routes (cfg : Configuration) (ds : Backend) (m : MetricsRef) :
  exists pub adm,
    NewPublicHandler Ver Rev cfg ds m = Some pub
    /\ NewAdminHandler Ver Rev cfg ds m = Some adm
    /\ routes adm =
         (routes pub ++
          (if AllowPublicWrite (CRoutes cfg) then []
           else [mkRoute "POST" "/cache"
                   (NewPutHandler ds m (MaxNumValues (CRequestLimits cfg))
                      (AllowSettingKeys (CRequestLimits cfg)))]))%list
    /\ lookup pub "GET" "/cache"
       = Some (NewGetHandler ds m (AllowSettingKeys (CRequestLimits cfg)))
    /\ lookup adm "GET" "/cache" = lookup pub "GET" "/cache"
    /\ lookup adm "POST" "/cache"
       = Some (NewPutHandler ds m (MaxNumValues (CRequestLimits cfg))
                 (AllowSettingKeys (CRequestLimits cfg))).
Proof.
  unfold NewPublicHandler, NewAdminHandler.
  rewrite addReadRoutes_New. simpl.
  destruct (AllowPublicWrite (CRoutes cfg)); simpl;
    eexists; eexists; (split; [reflexivity|]); (split; [reflexivity|]);
    unfold lookup; rewrite handleRateLimiting_routes;
    repeat split; reflexivity.
Qed.

(** The rate of the limiter is num_requests itself up to 2^53 in size;
    beyond, it is the nearest float64. *)
Lemma ofInt64_exact (n : Z) :
  (Z.abs n <= 2 ^ 53)%Z -> GoFloat.ofInt64 n = n.
Proof.
  intros H. unfold GoFloat.ofInt64.
  assert (R : forall a, (0 <= a <= 2 ^ 53)%Z -> GoFloat.round53 a = a).
  { intros a Ha. unfold GoFloat.round53.
    destruct (Z.ltb_spec a (2 ^ 53)); [reflexivity|].
    assert (a = 2 ^ 53)%Z as -> by lia. reflexivity. }
  destruct (Z.ltb_spec n 0); [rewrite R|apply R]; lia.
Qed.

Lemma ofInt64_rounds :
  GoFloat.ofInt64 (2 ^ 53 + 1) = (2 ^ 53)%Z
  /\ GoFloat.ofInt64 (2 ^ 53 + 3) = (2 ^ 53 + 4)%Z
  /\ GoFloat.ofInt64 (2 ^ 63 - 1) = (2 ^ 63)%Z
  /\ GoFloat.ofInt64 (- 2 ^ 63) = (- 2 ^ 63)%Z.
Proof. repeat split; reflexivity. Qed.

(** The message, character by character: an opening brace, a space, the
    word error in double quotes, a colon, a space, the words rate limit
    in double quotes, a space, a closing brace. *)
Lemma rateLimitMessage_characters :
  List.map Ascii.nat_of_ascii (String.list_ascii_of_string rateLimitMessage) =
    [123; 32; 34; 101; 114; 114; 111; 114; 34; 58; 32; 34; 114; 97; 116; 101;
     32; 108; 105; 109; 105; 116; 34; 32; 125]%nat.
Proof. reflexivity. Qed.

(** X18: the middleware of the public handler: one CORS layer, which allows
    credentials and accepts every origin, directly around the router; and,
    only when rate limiting is enabled, one limiter outside the CORS
    layer, with float64(num_requests) as its rate (whatever the sign of
    num_requests: it is not validated), an expiry of one hour, the client
    address taken from X-Forwarded-For and then X-Real-IP, and the JSON
    message with the member error and the value rate limit, of content
    type application/json. *)
Theorem public_middleware (cfg : Configuration) (ds : Backend) (m : MetricsRef) :
  exists pub,
    NewPublicHandler Ver Rev cfg ds m = Some pub
    /\ match pub with
       | LimitHandler l (CorsHandler _ (RouterHandler _)) =>
           Enabled (CRateLimiting cfg) = true
           /\ l = mkLimiter
                    (GoFloat.ofInt64 (MaxRequestsPerSecond (CRateLimiting cfg)))
                    3600000 ["X-Forwarded-For"; "X-Real-IP"]
                    rateLimitMessage "application/json"
       | CorsHandler _ (RouterHandler _) => Enabled (CRateLimiting cfg) = false
       | _ => False
       end
    /\ length (cors_options pub) = 1
    /\ Forall (fun o => AllowCredentials o = true
                        /\ forall origin, AllowOriginFunc o origin = true)
         (cors_options pub)
    /\ Proc.terminates (RateLimiting_validateAndLog (CRateLimiting cfg)) = false.
Proof.
  unfold NewPublicHandler.
  rewrite addReadRoutes_New. simpl.
  destruct (AllowPublicWrite (CRoutes cfg)); simpl;
    eexists; (split; [reflexivity|]);
    unfold handleRateLimiting; destruct (Enabled (CRateLimiting cfg));
    cbn -[GoFloat.ofInt64 rateLimitMessage];
    repeat split; auto.
Qed.

(** X19: the line that the validation of the routes logs and the routes of
    the public router agree: the validation announces that the main server
    only accepts GET requests exactly when the public router has no POST
    route, and then every route of the public router is a GET route. *)
Theorem get_only_announced (cfg : Configuration) (ds : Backend) (m : MetricsRef) :
  exists pub,
    NewPublicHandler Ver Rev cfg ds m = Some pub
    /\ fst (Routes_validateAndLog (CRoutes cfg)) =
         (if has_method pub "POST" then []
          else [Proc.mkLine Proc.InfoLevel
                  "Main server will only accept GET requests" []])
    /\ forallb (fun r => String.eqb (method r) "GET") (routes pub)
       = negb (has_method pub "POST").
Proof.
  unfold NewPublicHandler, Routes_validateAndLog.
  rewrite addReadRoutes_New. simpl.
  destruct (AllowPublicWrite (CRoutes cfg)); simpl;
    eexists; (split; [reflexivity|]);
    unfold has_method; rewrite handleRateLimiting_routes; split; reflexivity.
Qed.

End RoutersMore.

(** ** Loading the configuration *)

Section Loading.
Import Config Backends BackendConfig StartupSpec Observe.
Local Open Scope Z_scope.

(** X20: a configuration file that is found but cannot be read ends the
    process, whatever the defaults and the environment are, with the one
    line that carries the reading error; a file that is not found does
    not: with nothing overridden, NewConfig then writes exactly one line,
    the info line that announces the defaults, and returns. *)
Theorem NewConfig_file_errors
    (k : Utils.Constants) (env : gmap string Viper.Value) (err : string) :
  NewConfig k env (Viper.FileDefective err) =
    ([Proc.mkLine Proc.FatalLevel "Configuration file could not be read: %v"
        [Proc.AStr err]], Proc.Exits 1)
  /\ fst (NewConfig k ∅ Viper.FileNotFound) =
       [Proc.mkLine Proc.InfoLevel
          "Configuration file not detected. Initializing with default values and environment variable overrides."
          []]
  /\ Proc.terminates (NewConfig k ∅ Viper.FileNotFound) = false.
Proof.
  split; [reflexivity|].
  split; vm_compute; reflexivity.
Qed.

(** X21: started from the defaults alone, the server gets the in-memory
    engine under snappy compression, a size limit of
    REQUEST_MAX_SIZE_BYTES when that constant is positive, the metrics
    logger and a TTL limit of REQUEST_MAX_TTL_SECONDS; and the default
    configuration passes the validation (given a backend validation that
    passes) exactly when none of the three default limits is negative. *)
Theorem default_backend (k : Utils.Constants) (m : MetricsRef) :
  exists cfg,
    Proc.result (NewConfig k ∅ Viper.FileNotFound) = Proc.Returns cfg
    /\ Proc.result (NewBackend cfg m) =
         Proc.Returns
           (LimitTTLs
              (LogMetrics
                 (if Utils.REQUEST_MAX_SIZE_BYTES k >? 0
                  then EnforceSizeLimit (SnappyCompress NewMemoryBackend)
                         (Utils.REQUEST_MAX_SIZE_BYTES k)
                  else SnappyCompress NewMemoryBackend) m)
              (Utils.REQUEST_MAX_TTL_SECONDS k))
    /\ Proc.terminates (ValidateAndLog (fun b => Proc.ret (b, None)) cfg) =
         (Utils.REQUEST_MAX_TTL_SECONDS k <? 0)
         || (Utils.REQUEST_MAX_SIZE_BYTES k <? 0)
         || (Utils.REQUEST_MAX_NUM_VALUES k <? 0).
Proof.
  eexists. split; [vm_compute; reflexivity|].
  destruct k as [re rl sz nv ttl]. split.
  - cbn. destruct (sz >? 0); reflexivity.
  - unfold Proc.terminates. rewrite ValidateAndLog_result.
    unfold negativeLimit. cbn.
    destruct ((ttl <? 0) || (sz <? 0) || (nv <? 0)); reflexivity.
Qed.

(** X22: [PrometheusMetrics.Timeout] is the configured number of
    milliseconds as nanoseconds, exactly, as long as that number of
    nanoseconds fits Go's 64-bit duration; it then has the sign of
    timeout_ms and is 0 only for 0. *)
Theorem Timeout_exact (p : PrometheusMetrics) :
  GoInt.in_range (TimeoutMillisRaw p * 1000000) ->
  Timeout p = TimeoutMillisRaw p * 1000000
  /\ (Timeout p = 0 <-> TimeoutMillisRaw p = 0)
  /\ (0 <= Timeout p <-> 0 <= TimeoutMillisRaw p).
Proof.
  intros R. unfold Timeout, GoInt.mul, Millisecond.
  rewrite (wrap_in_range _ R). lia.
Qed.

Lemma Timeout_exact_witness :
  Timeout Samples.prometheus250 = 250000000.
Proof.
  apply (Timeout_exact Samples.prometheus250).
  unfold GoInt.in_range, GoInt.min_int, GoInt.max_int. simpl. lia.
Defined.

End Loading.

(** * The fatal start-up cases *)

Section StartupCases.
Import Config Backends BackendConfig StartupSpec FatalSpec Observe.
Local Open Scope Z_scope.

(** The factory and NewBackend of the claims are the parametrised ones at
    the constructors that succeed silently. *)
Lemma newBaseBackend_recording (cfg : Config.Backend) (m : MetricsRef) :
  newBaseBackendWith recording cfg m = newBaseBackend cfg m.
Proof. reflexivity. Qed.

Lemma NewBackend_recording (cfg : Configuration) (m : MetricsRef) :
  NewBackendWith recording cfg m = NewBackend cfg m.
Proof. reflexivity. Qed.

Lemma newBaseBackendWith_returning (E : Constructors) (cfg : Config.Backend)
    (m : MetricsRef) :
  returning E ->
  Proc.terminates (newBaseBackendWith E cfg m) = negb (knownBackend (Type_ cfg)).
Proof.
  intros (Rc & Rm & Rh & Ra & Rr). unfold newBaseBackendWith.
  destruct (knownBackend_cases (Type_ cfg))
    as [T | [T | [T | [T | [T | (K & E1 & E2 & E3 & E4 & E5)]]]]];
    try (rewrite T; cbn; auto).
  rewrite K, E1, E2, E3, E4, E5. reflexivity.
Qed.

(** The metrics part alone ends the validation of [Samples.statsdMetrics],
    whatever the backend validation does. *)
Lemma ValidateAndLog_statsd
    (V : Config.Backend -> Proc.t (Config.Backend * option string)) :
  Proc.terminates (ValidateAndLog V Samples.statsdMetrics) = true.
Proof.
  rewrite ValidateAndLog_terminates.
  assert (metricsFatal (CMetrics Samples.statsdMetrics) = true) as -> by reflexivity.
  apply orb_true_r.
Qed.

(** C5, as the claim states it, fails in both directions for the
    validation as a whole: a configuration with a known backend tag, a
    known compression type and no negative limit, whose metrics type is
    not supported, ends the process; and with a backend validation that
    lets it through, an unknown backend tag does not end the validation
    (it ends the factory, later). *)
Lemma ValidateAndLog_not_exactly_fatal_cases :
  fatalCase Samples.statsdMetrics = false
  /\ ~ exitsExactly Samples.passing Samples.statsdMetrics
  /\ fatalCase Samples.unknownTag = true
  /\ ~ exitsExactly Samples.passing Samples.unknownTag.
Proof.
  unfold exitsExactly.
  split; [reflexivity|]. split; [vm_compute; discriminate|].
  split; [reflexivity|]. vm_compute; discriminate.
Qed.

(** C5 (amended): each ConfigurationFatal case ends the process at
    start-up: a negative max_ttl_seconds, max_size_bytes or
    max_num_values ends the limits check and with it
    Configuration.ValidateAndLog; a compression type other than none and
    snappy ends Configuration.ValidateAndLog and applyCompression; an
    unrecognized backend type tag ends newBaseBackend, and with it
    NewBackend, before any engine constructor is called.  Each of the
    three steps ends the process in its own case only, the factory as
    long as the constructor it calls returns.  These are not the only
    fatal start-up conditions: Configuration.ValidateAndLog ends the
    process exactly when a limit is negative, or the backend validation
    fails, or the compression type is unrecognized, or the metrics part is
    fatal; and an engine constructor may fail. *)
Theorem startup_fatal_cases
    (V : Config.Backend -> Proc.t (Config.Backend * option string))
    (E : Constructors) (cfg : Configuration) (m : MetricsRef) (b : Backend) :
  Proc.terminates (ValidateAndLog V cfg)
    = negativeLimit (CRequestLimits cfg)
      || validationFails (V (CBackend cfg))
      || negb (knownCompression (CType (CCompression cfg)))
      || metricsFatal (CMetrics cfg)
  /\ Proc.terminates (RequestLimits_validateAndLog (CRequestLimits cfg))
     = negativeLimit (CRequestLimits cfg)
  /\ Proc.terminates (applyCompression (CCompression cfg) b)
     = negb (knownCompression (CType (CCompression cfg)))
  /\ (knownBackend (Type_ (CBackend cfg)) = false ->
      newBaseBackendWith E (CBackend cfg) m
        = Proc.Fatalf "Unknown backend type: %s" [Proc.AStr (Type_ (CBackend cfg))]
      /\ Proc.terminates (NewBackendWith E cfg m) = true)
  /\ (returning E ->
      Proc.terminates (newBaseBackendWith E (CBackend cfg) m)
        = negb (knownBackend (Type_ (CBackend cfg)))
      /\ Proc.terminates (NewBackendWith E cfg m)
         = negb (knownBackend (Type_ (CBackend cfg)))
           || negb (knownCompression (CType (CCompression cfg)))).
Proof.
  split; [apply ValidateAndLog_terminates|].
  split; [apply RequestLimits_terminates|].
  split; [apply applyCompression_terminates|].
  split.
  - intros K. split; [apply newBaseBackendWith_unknown; exact K|].
    rewrite NewBackendWith_terminates, (newBaseBackendWith_unknown E _ m K).
    reflexivity.
  - intros R. pose proof (newBaseBackendWith_returning E (CBackend cfg) m R) as T.
    split; [exact T|].
    rewrite NewBackendWith_terminates. unfold Proc.terminates in T.
    destruct (Proc.result (newBaseBackendWith E (CBackend cfg) m));
      rewrite <- T; reflexivity.
Qed.

Lemma startup_fatal_cases_witness :
  Proc.terminates
    (NewBackendWith Samples.redisDown Samples.unknownBoth Samples.appMetrics) = true
  /\ Proc.terminates
       (NewBackendWith recording Samples.memoryGzip Samples.appMetrics) = true.
Proof.
  destruct (startup_fatal_cases Samples.passing Samples.redisDown
              Samples.unknownBoth Samples.appMetrics NewMemoryBackend)
    as (_ & _ & _ & H & _).
  destruct (startup_fatal_cases Samples.passing recording
              Samples.memoryGzip Samples.appMetrics NewMemoryBackend)
    as (_ & _ & _ & _ & H').
  split.
  - apply H. reflexivity.
  - apply H'. repeat split; reflexivity.
Defined.

End StartupCases.
